(** * The dot-package generator of contentlayer

    A shallow embedding of
    [packages/@contentlayer/core/src/commands/generate-dotpkg.ts]:
    the naming functions, the template renderers, the hash-gated file
    writer and the derivation of the files of one generation cycle,
    followed by the properties its specification states about them.

    JavaScript strings are modelled by [string].  Every character the
    generator inspects ([/], the digits, the ASCII letters) is a single
    unit of the string in UTF-8 as in UTF-16, and never part of a longer
    sequence, so the model does not depend on the encoding. *)

From stdpp Require Import base option list strings gmap sorting.
From Stdlib Require Import ZArith Ascii.

Set Warnings "-register-all".

(** ** JavaScript primitives used by the generator *)

(** The character class [[0-9]]. *)
Definition is_digit (c : ascii) : bool :=
  let n := nat_of_ascii c in (48 <=? n)%nat && (n <=? 57)%nat.

(** [/^[0-9]/.test(str)] *)
Definition starts_with_digit (str : string) : bool :=
  match str with
  | EmptyString => false
  | String c _ => is_digit c
  end.

(** [str.replace(/c/g, by)] for a pattern that is the single character [c]. *)
Fixpoint replace_all (c : ascii) (by_ : string) (str : string) : string :=
  match str with
  | EmptyString => EmptyString
  | String d rest =>
      if Ascii.eqb d c then by_ +:+ replace_all c by_ rest
      else String d (replace_all c by_ rest)
  end.

(** [Array.prototype.join] on an array of strings. *)
Fixpoint join (sep : string) (parts : list string) : string :=
  match parts with
  | [] => EmptyString
  | [p] => p
  | p :: rest => p +:+ sep +:+ join sep rest
  end.

(** [Array.prototype.sort(comparefn)]: the sort is stable and orders by the
    sign of [comparefn].  For a consistent comparator the result is
    determined by these two facts; it is computed here by insertion from
    the right, an element going in front of the first one it does not
    follow. *)
Fixpoint sort_insert {A} (comparefn : A -> A -> Z) (x : A) (sorted : list A) : list A :=
  match sorted with
  | [] => [x]
  | y :: rest =>
      if (0 <? comparefn x y)%Z then y :: sort_insert comparefn x rest
      else x :: sorted
  end.

Definition Array_sort {A} (comparefn : A -> A -> Z) (arr : list A) : list A :=
  foldr (sort_insert comparefn) [] arr.

(** A plain object used as a dictionary: its own enumerable properties in
    the order [Object.values] visits them. *)
Definition Record_ (V : Type) : Type := list (string * V).

Definition Object_values {V} (obj : Record_ V) : list V := obj.*2.

(** ** Code of the repository outside this file

    [lowercaseFirstChar] and [uppercaseFirstChar] come from
    [@contentlayer/utils]. *)

Definition ascii_lower (c : ascii) : ascii :=
  let n := nat_of_ascii c in
  if (65 <=? n)%nat && (n <=? 90)%nat then ascii_of_nat (n + 32) else c.

Definition ascii_upper (c : ascii) : ascii :=
  let n := nat_of_ascii c in
  if (97 <=? n)%nat && (n <=? 122)%nat then ascii_of_nat (n - 32) else c.

(** Modelled from the spec: [lowercaseFirstChar] of [@contentlayer/utils],
    which is not part of this file.  The spec's "lower-camel" form of a
    name: the first character in lower case, the rest unchanged (ASCII
    letters; other characters are left as they are). *)
Definition lowercaseFirstChar (str : string) : string :=
  match str with
  | EmptyString => EmptyString
  | String c rest => String (ascii_lower c) rest
  end.

(** Modelled from the spec: [uppercaseFirstChar] of [@contentlayer/utils],
    which is not part of this file.  The spec's "PascalCase" form of a name:
    the first character in upper case, the rest unchanged (ASCII letters). *)
Definition uppercaseFirstChar (str : string) : string :=
  match str with
  | EmptyString => EmptyString
  | String c rest => String (ascii_upper c) rest
  end.

(** ** Values, exceptions and JSON *)

Definition LF : string := String "010" EmptyString.

(** The lines of a template literal, put together again. *)
Definition lines (ls : list string) : string := join LF ls.

(** A thrown value: an [Error] with its [name] and, for a system error, its
    [code] ([e.code] is [undefined] otherwise). *)
Record JsError := {
  error_name : string;
  error_code : option string;
}.

Definition TypeError : JsError :=
  {| error_name := "TypeError"; error_code := None |}.

(** How the evaluation of an expression ends. *)
Inductive completion (A : Type) : Type :=
  | Returns (a : A)
  | Throws (e : JsError).
Arguments Returns {A} a.
Arguments Throws {A} e.

Definition completion_bind {A B} (c : completion A) (k : A -> completion B)
  : completion B :=
  match c with
  | Returns a => k a
  | Throws e => Throws e
  end.

Notation "x <- c ; k" := (completion_bind c (fun x => k))
  (at level 100, c at next level, right associativity, only parsing).

(** [arr.map(f)] for an [f] that may throw: the first exception ends the
    loop. *)
Fixpoint map_throwing {A B} (f : A -> completion B) (arr : list A)
  : completion (list B) :=
  match arr with
  | [] => Returns []
  | a :: rest =>
      b <- f a;
      bs <- map_throwing f rest;
      Returns (b :: bs)
  end.

(** A JSON value.  A finite number is given by the text [Number::toString]
    prints for it, which is what [JSON.stringify] writes; [NaN] and the
    infinities are written as [null]. *)
Inductive json :=
  | JNull
  | JBool (b : bool)
  | JNumber (printed : string)
  | JString (s : string)
  | JArray (items : list json)
  | JObject (props : list (string * json)).

Definition hex_digit (n : nat) : ascii :=
  if (n <? 10)%nat then ascii_of_nat (48 + n) else ascii_of_nat (87 + n).

(** One character of a JSON string literal ([QuoteJSONString]). *)
Definition quote_char (c : ascii) : string :=
  let n := nat_of_ascii c in
  if (n =? 34)%nat then String "\" (String c EmptyString)
  else if (n =? 92)%nat then "\\"
  else if (n =? 8)%nat then "\b"
  else if (n =? 9)%nat then "\t"
  else if (n =? 10)%nat then "\n"
  else if (n =? 12)%nat then "\f"
  else if (n =? 13)%nat then "\r"
  else if (n <? 32)%nat then
    "\u00" +:+ String (hex_digit (n / 16)) (String (hex_digit (n mod 16)) EmptyString)
  else String c EmptyString.

Fixpoint quote_chars (s : string) : string :=
  match s with
  | EmptyString => EmptyString
  | String c rest => quote_char c +:+ quote_chars rest
  end.

Definition DQUOTE : string := String "034" EmptyString.

Definition JSON_quote (s : string) : string := DQUOTE +:+ quote_chars s +:+ DQUOTE.

(** [SerializeJSONProperty] with the gap of two spaces, at the indentation
    [indent]. *)
Fixpoint JSON_serialize (indent : string) (value : json) : string :=
  let stepback := indent in
  let indent := indent +:+ "  " in
  match value with
  | JNull => "null"
  | JBool true => "true"
  | JBool false => "false"
  | JNumber printed => printed
  | JString s => JSON_quote s
  | JArray items =>
      match items with
      | [] => "[]"
      | _ =>
          "[" +:+ LF +:+ indent
            +:+ join ("," +:+ LF +:+ indent) (map (JSON_serialize indent) items)
            +:+ LF +:+ stepback +:+ "]"
      end
  | JObject props =>
      match props with
      | [] => "{}"
      | _ =>
          "{" +:+ LF +:+ indent
            +:+ join ("," +:+ LF +:+ indent)
                  (map (fun kv => JSON_quote (fst kv) +:+ ": "
                                    +:+ JSON_serialize indent (snd kv)) props)
            +:+ LF +:+ stepback +:+ "}"
      end
  end.

(** [JSON.stringify(value, null, 2)] *)
Definition JSON_stringify (value : json) : string := JSON_serialize EmptyString value.

(** The object literal of [makePackageJson]. *)
Definition packageJson : json :=
  JObject [
    ("name", JString "dot-contentlayer");
    ("description", JString "This package is auto-generated by Contentlayer");
    ("version", JString "0.0.0");
    ("exports", JObject [
      ("./data", JObject [("import", JString "./data/index.js")]);
      ("./types", JObject [("import", JString "./types/index.js")]) ]);
    ("typesVersions", JObject [
      ("*", JObject [
        ("data", JArray [JString "./data"]);
        ("types", JArray [JString "./types"]) ]) ]) ].

(** ** The file system and the written-files cache *)

(** A call of the [fs] module, as a spy on it would record it. *)
Inductive FsCall :=
  | FsWriteFile (path : string) (data : string)
  | FsMkdir (path : string).

(** The host's file system: what [fs.promises.writeFile(path, data, 'utf8')]
    and [fs.promises.mkdir(path, { recursive: true })] do to it and how
    they settle.  Nothing is assumed about it. *)
Class Host := {
  HostState : Type;
  host_writeFile : string -> string -> HostState -> completion unit * HostState;
  host_mkdir : string -> HostState -> completion unit * HostState;
}.

(** [WrittenFilesCache = Record<FilePath, DocumentHash>]: the own properties
    of the cache object.  The properties a plain object inherits are
    functions and objects, so [writtenFilesCache[filePath] === documentHash]
    holds for a string [documentHash] exactly when [filePath] is an own
    property with that value. *)
Abbreviation WrittenFilesCache := (gmap string string).

Section FileSystem.

Context `{Host}.

(** The state outside the program: the host's file system and the calls
    made to it so far. *)
Record World := {
  hostState : HostState;
  fsCalls : list FsCall;
}.

Definition fs_writeFile (path data : string) (w : World) : completion unit * World :=
  let '(result, h) := host_writeFile path data (hostState w) in
  (result, {| hostState := h; fsCalls := fsCalls w ++ [FsWriteFile path data] |}).

Definition fs_mkdir (path : string) (w : World) : completion unit * World :=
  let '(result, h) := host_mkdir path (hostState w) in
  (result, {| hostState := h; fsCalls := fsCalls w ++ [FsMkdir path] |}).

Definition mkdir (dirPath : string) (w : World) : completion unit * World :=
  match fs_mkdir dirPath w with
  | (Returns _, w') => (Returns (), w')
  | (Throws e, w') =>
      if bool_decide (error_code e ≠ Some "EEXIST") then (Throws e, w')
      else (Returns (), w')
  end.

(** [obj[key] = value] for a string [value]: an own property is created or
    overwritten, except that [__proto__], when it is not an own property
    already, is the accessor of [Object.prototype], whose setter ignores a
    value that is neither an object nor [null]. *)
Definition Object_set (key value : string) (obj : WrittenFilesCache) : WrittenFilesCache :=
  if bool_decide (key = "__proto__" ∧ obj !! key = None) then obj
  else <[key := value]> obj.

(** [ToBoolean] of an optional string: [undefined] and the empty string are
    false. *)
Definition truthy (v : option string) : bool :=
  match v with
  | None => false
  | Some s => negb (String.eqb s EmptyString)
  end.

(** The argument of the cached write, [{ filePath, content, documentHash? }]. *)
Record GeneratedFile := {
  filePath : string;
  content : string;
  documentHash : option string;
}.

Definition writeFileWithWrittenFilesCache
    (writtenFilesCache : WrittenFilesCache) (file : GeneratedFile) (w : World)
  : completion unit * WrittenFilesCache * World :=
  if bool_decide (documentHash file ≠ None
                  ∧ writtenFilesCache !! filePath file = documentHash file)
  then (Returns (), writtenFilesCache, w)
  else
    match fs_writeFile (filePath file) (content file) w with
    | (Throws e, w') => (Throws e, writtenFilesCache, w')
    | (Returns _, w') =>
        (Returns (),
         match documentHash file with
         | Some hash =>
             if truthy (documentHash file)
             then Object_set (filePath file) hash writtenFilesCache
             else writtenFilesCache
         | None => writtenFilesCache
         end,
         w')
    end.

End FileSystem.

(** ** Schema and documents *)

(** A document with the two fields the generator reads and the value
    [JSON.stringify] sees. *)
Record Document := {
  _typeName : string;
  _id : string;
  document_json : json;
}.

Module CacheItem.
Record t := {
  document : Document;
  documentHash : string;
}.
End CacheItem.

Record Cache := {
  cacheItemsMap : Record_ CacheItem.t;
}.


(** [SourcePluginType], a string tag (['local'], ['contentful'], ...). *)
Definition SourcePluginType : Type := string.

Section Generator.

(** The field descriptions of a type definition are only handed on to
    [renderDocumentOrObjectDef]; the generator never looks inside. *)
Context {FieldDefs : Type}.

Record DocumentDef := {
  name : string;
  isSingleton : bool;
  fieldDefs : FieldDefs;
}.

Record ObjectDef := {
  obj_name : string;
  obj_fieldDefs : FieldDefs;
}.

Inductive DocumentOrObjectDef :=
  | IsDocumentDef (def : DocumentDef)
  | IsObjectDef (def : ObjectDef).

Record SchemaDef := {
  documentDefMap : Record_ DocumentDef;
  objectDefMap : Record_ ObjectDef;
}.

(** What the file imports from other packages and modules: the [inflection]
    package, [camelCase] of the [camel-case] package (with the
    [stripRegexp] option the generator passes), [String.prototype.localeCompare],
    [path.join] and [renderDocumentOrObjectDef] of [./generate-types]. *)
Class Imports := {
  inflection_singularize : string -> string;
  inflection_pluralize : string -> string;
  camelCase : string -> string;
  localeCompare : string -> string -> Z;
  path_join : list string -> string;
  renderDocumentOrObjectDef : DocumentOrObjectDef -> SourcePluginType -> string;
}.

Context `{Imports}.

(** ** Naming *)

Definition getDataVariableName (docDef : DocumentDef) : string :=
  if isSingleton docDef then
    lowercaseFirstChar (inflection_singularize (name docDef))
  else
    "all" +:+ uppercaseFirstChar (inflection_pluralize (name docDef)).

Definition leftPadWithUnderscoreIfStartsWithNumber (str : string) : string :=
  if starts_with_digit str then "_" +:+ str else str.

Definition idToFileName (id : string) : string :=
  replace_all "/" "__" (leftPadWithUnderscoreIfStartsWithNumber id).

(** [idToFileName(v)] where [v] was read from an array and is [undefined]
    past its end.  On [undefined] the test [/^[0-9]/.test(str)] sees the
    text [undefined], which starts with no digit, so
    [leftPadWithUnderscoreIfStartsWithNumber] returns [undefined] itself,
    and reading [.replace] of it raises a [TypeError]. *)
Definition idToFileName_at (v : option string) : completion string :=
  match v with
  | Some id => Returns (idToFileName id)
  | None =>
      if starts_with_digit "undefined" then Returns (idToFileName "_undefined")
      else Throws TypeError
  end.

(** ** Rendering *)

Definition autogeneratedNote : string :=
  "NOTE This file is auto-generated by the Contentlayer CLI".

Definition makePackageJson : string := JSON_stringify packageJson.

(** [flow(idToFileName, (_) => camelCase(_, { stripRegexp: ... }))] *)
Definition makeVariableName (id : string) : string := camelCase (idToFileName id).

Definition makeDataExportFile (docDef : DocumentDef) (documentIds : list string)
  : completion string :=
  let dataVariableName := getDataVariableName docDef in
  if isSingleton docDef then
    let documentId := documentIds !! 0%nat in
    fileName <- idToFileName_at documentId;
    Returns (lines [
      "// " +:+ autogeneratedNote;
      "export { default as " +:+ dataVariableName +:+ " } from './" +:+ name docDef
        +:+ "/" +:+ fileName +:+ ".json'";
      EmptyString ])
  else
    let docImports :=
      join LF
        ((fun id => "import " +:+ makeVariableName id +:+ " from './" +:+ name docDef
                    +:+ "/" +:+ idToFileName id +:+ ".json'") <$> documentIds) in
    Returns (lines [
      "// " +:+ autogeneratedNote;
      EmptyString;
      docImports;
      EmptyString;
      "export const " +:+ dataVariableName +:+ " = ["
        +:+ join ", " (makeVariableName <$> documentIds) +:+ "]";
      EmptyString ]).

Definition makeIndexJs (schemaDef : SchemaDef) : string :=
  let dataVariableNames :=
    (fun docDef => (docDef, getDataVariableName docDef))
      <$> Object_values (documentDefMap schemaDef) in
  let constReexports :=
    join LF ((fun '(_, dataVariableName) =>
                "export * from './" +:+ dataVariableName +:+ ".js'")
             <$> dataVariableNames) in
  let constImportsForAllDocuments :=
    join LF ((fun '(_, dataVariableName) =>
                "import { " +:+ dataVariableName +:+ " } from './"
                  +:+ dataVariableName +:+ ".js'")
             <$> dataVariableNames) in
  let allDocuments :=
    join ", " ((fun '(docDef, dataVariableName) =>
                  if isSingleton docDef then dataVariableName
                  else "..." +:+ dataVariableName)
               <$> dataVariableNames) in
  lines [
    "// " +:+ autogeneratedNote;
    EmptyString;
    "export { isType } from 'contentlayer/client'";
    EmptyString;
    constReexports;
    constImportsForAllDocuments;
    EmptyString;
    "export const allDocuments = [" +:+ allDocuments +:+ "]";
    EmptyString ].

(** The two sorted arrays [makeTypes] starts from, before each definition
    is rendered. *)
Definition sortedDocumentDefs (schemaDef : SchemaDef) : list DocumentDef :=
  Array_sort (fun a b => localeCompare (name a) (name b))
    (Object_values (documentDefMap schemaDef)).

Definition sortedObjectDefs (schemaDef : SchemaDef) : list ObjectDef :=
  Array_sort (fun a b => localeCompare (obj_name a) (obj_name b))
    (Object_values (objectDefMap schemaDef)).

Definition makeTypes (schemaDef : SchemaDef) (sourcePluginType : SourcePluginType)
  : string :=
  let documentTypes :=
    (fun def => (name def,
                 renderDocumentOrObjectDef (IsDocumentDef def) sourcePluginType))
      <$> sortedDocumentDefs schemaDef in
  let objectTypes :=
    (fun def => (obj_name def,
                 renderDocumentOrObjectDef (IsObjectDef def) sourcePluginType))
      <$> sortedObjectDefs schemaDef in
  let typeMap :=
    join LF ((fun n => "  " +:+ n +:+ ": " +:+ n) <$> (documentTypes.*1)) in
  let importsForRawTypes :=
    if String.eqb sourcePluginType "local" then
      "import * as Local from 'contentlayer/source-local'"
    else if String.eqb sourcePluginType "contentful" then
      "import * as Contentful from '@contentlayer/source-contentful'"
    else EmptyString in
  lines [
    "// " +:+ autogeneratedNote;
    EmptyString;
    "import type { Markdown, MDX } from 'contentlayer/core'";
    importsForRawTypes;
    EmptyString;
    "export { isType } from 'contentlayer/client'";
    EmptyString;
    "export type Image = string";
    "export type { Markdown, MDX }";
    EmptyString;
    "export interface ContentlayerGenTypes {";
    "  documentTypes: DocumentTypes";
    "  documentTypeMap: DocumentTypeMap";
    "  documentTypeNames: DocumentTypeNames";
    "  allTypeNames: AllTypeNames";
    "}";
    EmptyString;
    "declare global {";
    "  interface ContentlayerGen extends ContentlayerGenTypes {}";
    "}";
    EmptyString;
    "export type DocumentTypeMap = {";
    typeMap;
    "}";
    EmptyString;
    "export type AllTypes = DocumentTypes | ObjectTypes";
    "export type AllTypeNames = DocumentTypeNames | ObjectTypeNames";
    EmptyString;
    "export type DocumentTypes = " +:+ join " | " (documentTypes.*1);
    "export type DocumentTypeNames = DocumentTypes['_typeName']";
    EmptyString;
    "export type ObjectTypes = "
      +:+ (if (0 <? length objectTypes)%nat then join " | " (objectTypes.*1)
           else "never");
    "export type ObjectTypeNames = ObjectTypes['_typeName']";
    EmptyString;
    EmptyString;
    EmptyString;
    "/** Document types */";
    join (LF +:+ LF) (documentTypes.*2) +:+ "  ";
    EmptyString;
    "/** Object types */";
    join (LF +:+ LF) (objectTypes.*2) +:+ "  ";
    "  ";
    " " ].

Definition makeHelperTypes : string :=
  lines [
    "// " +:+ autogeneratedNote;
    EmptyString;
    "export { isType } from 'contentlayer/client'";
    EmptyString ].

Definition makeDataTypes (schemaDef : SchemaDef) : string :=
  let dataConsts :=
    join LF ((fun '(docDef, typeName, dataVariableName) =>
                "export declare const " +:+ dataVariableName +:+ ": " +:+ typeName
                  +:+ (if isSingleton docDef then EmptyString else "[]"))
             <$> ((fun docDef => (docDef, name docDef, getDataVariableName docDef))
                  <$> Object_values (documentDefMap schemaDef))) in
  let documentTypeNames :=
    join ", " (name <$> Object_values (documentDefMap schemaDef)) in
  lines [
    "// " +:+ autogeneratedNote;
    EmptyString;
    "import { " +:+ documentTypeNames +:+ ", DocumentTypes } from '../types'";
    EmptyString;
    dataConsts;
    EmptyString;
    "export declare const allDocuments: DocumentTypes[]";
    EmptyString;
    EmptyString ].

(** ** The files of one generation cycle *)

(** [writeFilesForCache] up to its first [await]: the descriptors of the
    barrels and of the documents and the directories, with the arguments of
    the two [Promise.all] that follow.  A renderer that throws ends the
    function before anything is created or written. *)
Record Plan := {
  dirPaths : list string;
  files : list GeneratedFile;
}.

Definition writeFilesForCache_plan (cache : Cache) (schemaDef : SchemaDef)
    (targetPath : string) (sourcePluginType : SourcePluginType) : completion Plan :=
  let withPrefix (path_ : list string) := path_join (targetPath :: path_) in
  let allCacheItems := Object_values (cacheItemsMap cache) in
  let allDocuments := CacheItem.document <$> allCacheItems in
  let documentDefs := Object_values (documentDefMap schemaDef) in
  dataBarrelFiles <-
    map_throwing
      (fun docDef =>
         content <-
           makeDataExportFile docDef
             (_id <$> filter (fun d => _typeName d = name docDef) allDocuments);
         Returns {| content := content;
                    filePath := withPrefix ["data"; getDataVariableName docDef +:+ ".js"];
                    documentHash := None |})
      documentDefs;
  let dataJsonFiles :=
    (fun item =>
       {| content := JSON_stringify (document_json (CacheItem.document item));
          filePath := withPrefix ["data"; _typeName (CacheItem.document item);
                                  idToFileName (_id (CacheItem.document item)) +:+ ".json"];
          documentHash := Some (CacheItem.documentHash item) |})
      <$> allCacheItems in
  let dataDirPaths := (fun d => withPrefix ["data"; name d]) <$> documentDefs in
  Returns {|
    dirPaths := withPrefix ["types"] :: dataDirPaths;
    files :=
      [ {| filePath := withPrefix ["package.json"]; content := makePackageJson;
           documentHash := None |};
        {| filePath := withPrefix ["types"; "index.d.ts"];
           content := makeTypes schemaDef sourcePluginType; documentHash := None |};
        {| filePath := withPrefix ["types"; "index.js"]; content := makeHelperTypes;
           documentHash := None |};
        {| filePath := withPrefix ["data"; "index.d.ts"];
           content := makeDataTypes schemaDef; documentHash := None |};
        {| filePath := withPrefix ["data"; "index.js"];
           content := makeIndexJs schemaDef; documentHash := None |} ]
      ++ dataBarrelFiles ++ dataJsonFiles |}.

End Generator.

(** ** A small instance of the imports

    Enough of the imported functions to run the generator on regular
    nouns: plurals in [-s], names compared character by character, paths
    joined with [/], identifiers that are camel case already. *)

Fixpoint singularize_regular (str : string) : string :=
  match str with
  | EmptyString => EmptyString
  | String c rest =>
      match rest with
      | EmptyString => if Ascii.eqb c "s" then EmptyString else str
      | _ => String c (singularize_regular rest)
      end
  end.

Definition pluralize_regular (str : string) : string := str +:+ "s".

Definition compare_lexical (a b : string) : Z :=
  match String.compare a b with
  | Lt => -1
  | Eq => 0
  | Gt => 1
  end.

Definition render_nominal (def : @DocumentOrObjectDef unit) (_ : SourcePluginType)
  : string :=
  let n := match def with
           | IsDocumentDef d => name d
           | IsObjectDef o => obj_name o
           end in
  "export type " +:+ n +:+ " = { _typeName: '" +:+ n +:+ "' }".

Definition regular_imports : @Imports unit := {|
  inflection_singularize := singularize_regular;
  inflection_pluralize := pluralize_regular;
  camelCase := id;
  localeCompare := compare_lexical;
  path_join := join "/";
  renderDocumentOrObjectDef := render_nominal;
|}.

(** An in-memory file system: the files by path; a write to a path of
    [readOnly] is refused with [EACCES], and [mkdir] on a path that holds a
    file is refused with [EEXIST]. *)
Record MemFs := {
  memFiles : gmap string string;
  memDirs : gset string;
  readOnly : gset string;
}.

Definition SystemError (code : string) : JsError :=
  {| error_name := "Error"; error_code := Some code |}.

Definition mem_writeFile (path data : string) (fs : MemFs)
  : completion unit * MemFs :=
  if bool_decide (path ∈ readOnly fs) then (Throws (SystemError "EACCES"), fs)
  else (Returns (), {| memFiles := <[path := data]> (memFiles fs);
                       memDirs := memDirs fs; readOnly := readOnly fs |}).

Definition mem_mkdir (path : string) (fs : MemFs) : completion unit * MemFs :=
  if bool_decide (is_Some (memFiles fs !! path)) then (Throws (SystemError "EEXIST"), fs)
  else if bool_decide (path ∈ readOnly fs) then (Throws (SystemError "EACCES"), fs)
  else (Returns (), {| memFiles := memFiles fs; memDirs := {[path]} ∪ memDirs fs;
                       readOnly := readOnly fs |}).

Definition mem_host : Host := {|
  HostState := MemFs;
  host_writeFile := mem_writeFile;
  host_mkdir := mem_mkdir;
|}.

(** ** Sample inputs *)

Definition Author : @DocumentDef unit :=
  {| name := "Author"; isSingleton := true; fieldDefs := () |}.

Definition Post : @DocumentDef unit :=
  {| name := "Post"; isSingleton := false; fieldDefs := () |}.

Definition Seo : @ObjectDef unit := {| obj_name := "Seo"; obj_fieldDefs := () |}.

Definition Cover : @ObjectDef unit := {| obj_name := "Cover"; obj_fieldDefs := () |}.

Definition schema_Author_Post : @SchemaDef unit := {|
  documentDefMap := [("Author", Author); ("Post", Post)];
  objectDefMap := [("Seo", Seo); ("Cover", Cover)];
|}.

Definition schema_Post_Author : @SchemaDef unit := {|
  documentDefMap := [("Post", Post); ("Author", Author)];
  objectDefMap := [("Cover", Cover); ("Seo", Seo)];
|}.

Definition post (id hash : string) : string * CacheItem.t :=
  (id, {| CacheItem.document :=
            {| _typeName := "Post"; _id := id;
               document_json := JObject [("_id", JString id);
                                         ("_typeName", JString "Post")] |};
          CacheItem.documentHash := hash |}).

Definition cache_of_posts : Cache :=
  {| cacheItemsMap := [post "2024/post" "h1"; post "hello" "h2"] |}.

Definition mem_world (fs : MemFs) : @World mem_host :=
  @Build_World mem_host fs [].

Definition world_with_file : @World mem_host :=
  mem_world {| memFiles := {[ "out/data/Post" := "text" ]};
               memDirs := ∅; readOnly := ∅ |}.

Definition world_read_only : @World mem_host :=
  mem_world {| memFiles := ∅; memDirs := ∅; readOnly := {[ "out/types" ]} |}.

Definition world_empty : @World mem_host :=
  mem_world {| memFiles := ∅; memDirs := ∅; readOnly := ∅ |}.

Definition cache_of_two : WrittenFilesCache :=
  {[ "out/data/Post/a.json" := "h1"; "out/data/Post/b.json" := "h2" ]}.

Definition changed_file : GeneratedFile := {|
  filePath := "out/data/Post/a.json";
  content := "{}";
  documentHash := Some "h3";
|}.

(** ** Vocabulary of the properties *)

(** The spec's description of [fileNameForId]: every [/] replaced by [__],
    then a [_] in front if the result starts with a digit. *)
Definition fileNameForId_spec (id : string) : string :=
  let replaced := replace_all "/" "__" id in
  if starts_with_digit replaced then "_" +:+ replaced else replaced.

Definition is_upper (c : ascii) : bool :=
  let n := nat_of_ascii c in (65 <=? n)%nat && (n <=? 90)%nat.

Definition is_lower (c : ascii) : bool :=
  let n := nat_of_ascii c in (97 <=? n)%nat && (n <=? 122)%nat.

Definition starts_with (p : ascii -> bool) (str : string) : bool :=
  match str with
  | EmptyString => false
  | String c _ => p c
  end.

Definition contains (text part : string) : Prop :=
  exists before after, text = before +:+ part +:+ after.

Definition ends_with (text tail : string) : Prop :=
  exists before, text = before +:+ tail.

(** What [Array.prototype.sort] asks of its comparator: the signs of
    [comparefn a b] and [comparefn b a] are opposite, and the order is
    transitive. *)
Record ConsistentComparator {A} (comparefn : A -> A -> Z) : Prop := {
  comparefn_antisym : forall a b, Z.sgn (comparefn a b) = (- Z.sgn (comparefn b a))%Z;
  comparefn_trans : forall a b c,
    (comparefn a b <= 0)%Z -> (comparefn b c <= 0)%Z -> (comparefn a c <= 0)%Z;
}.

(** The names of a mapping from type name to definition: no name twice,
    and no two of them equal for the comparator. *)
Definition DistinctNames (comparefn : string -> string -> Z) (names : list string)
  : Prop :=
  NoDup names
  /\ forall a b, a ∈ names -> b ∈ names -> comparefn a b = 0%Z -> a = b.

(** [a] does not come after [b]. *)
Definition precedes {A} (comparefn : A -> A -> Z) (a b : A) : Prop :=
  (comparefn a b <= 0)%Z.

(** [value[key]] on a JSON object. *)
Fixpoint props_get (key : string) (props : list (string * json)) : option json :=
  match props with
  | [] => None
  | (k, v) :: rest => if String.eqb k key then Some v else props_get key rest
  end.

Definition json_get (key : string) (value : json) : option json :=
  match value with
  | JObject props => props_get key props
  | _ => None
  end.

(** [Object.keys(value)] *)
Definition json_keys (value : json) : list string :=
  match value with
  | JObject props => props.*1
  | _ => []
  end.

(** A text written with ['] where the file has a double quote. *)
Definition double_quoted (text : string) : string :=
  replace_all "'" DQUOTE text.

Definition packageJson_text : string := double_quoted
"{
  'name': 'dot-contentlayer',
  'description': 'This package is auto-generated by Contentlayer',
  'version': '0.0.0',
  'exports': {
    './data': {
      'import': './data/index.js'
    },
    './types': {
      'import': './types/index.js'
    }
  },
  'typesVersions': {
    '*': {
      'data': [
        './data'
      ],
      'types': [
        './types'
      ]
    }
  }
}".

(** The spec's condition for skipping a write: a hash was supplied and the
    cache holds that very hash for the path. *)
Definition skippable (cache : WrittenFilesCache) (file : GeneratedFile) : Prop :=
  exists hash, documentHash file = Some hash /\ cache !! filePath file = Some hash.

(** [c] is one of the characters of [str]. *)
Fixpoint occurs (c : ascii) (str : string) : bool :=
  match str with
  | EmptyString => false
  | String d rest => Ascii.eqb d c || occurs c rest
  end.

(** Reading a file name back: every [__] becomes a [/] again. *)
Fixpoint unreplace_slashes (str : string) : string :=
  match str with
  | EmptyString => EmptyString
  | String c rest =>
      match rest with
      | EmptyString => str
      | String d rest' =>
          if Ascii.eqb c "_" && Ascii.eqb d "_"
          then String "/" (unreplace_slashes rest')
          else String c (unreplace_slashes rest)
      end
  end.

(** The id a file name was made from, for ids written without [_]: the
    slashes are restored and a [_] in front, which can only be padding, is
    dropped. *)
Definition fileNameToId (fileName : string) : string :=
  match unreplace_slashes fileName with
  | EmptyString => EmptyString
  | String c rest as restored => if Ascii.eqb c "_" then rest else restored
  end.

Definition begins_with (text head : string) : Prop :=
  exists rest, text = head +:+ rest.

Definition world_locked : @World mem_host :=
  mem_world {| memFiles := ∅; memDirs := ∅;
               readOnly := {[ "out/data/Post/a.json" ]} |}.

Definition locked_file : GeneratedFile := {|
  filePath := "out/data/Post/a.json";
  content := "{}";
  documentHash := Some "h1";
|}.

Definition schema_Post : @SchemaDef unit := {|
  documentDefMap := [("Post", Post)];
  objectDefMap := [];
|}.

Definition schema_of_objects : @SchemaDef unit := {|
  documentDefMap := [];
  objectDefMap := [("Seo", Seo)];
|}.

(** Strings that are canonically equivalent compare as equal under
    [localeCompare]: an e with an acute accent written as one code point
    (bytes 195, 169) and as [e] followed by the combining accent (bytes 204,
    129).  [compose_e_acute] rewrites the second form into the first. *)
Fixpoint compose_e_acute (str : string) : string :=
  match str with
  | EmptyString => EmptyString
  | String a rest =>
      match rest with
      | String b (String c rest') =>
          if Ascii.eqb a "e" && Ascii.eqb b "204" && Ascii.eqb c "129"
          then String "195" (String "169" (compose_e_acute rest'))
          else String a (compose_e_acute rest)
      | _ => String a (compose_e_acute rest)
      end
  end.

Definition compare_canonical (a b : string) : Z :=
  compare_lexical (compose_e_acute a) (compose_e_acute b).

Definition canonical_imports : @Imports unit := {|
  inflection_singularize := singularize_regular;
  inflection_pluralize := pluralize_regular;
  camelCase := id;
  localeCompare := compare_canonical;
  path_join := join "/";
  renderDocumentOrObjectDef := render_nominal;
|}.

Definition Cafe_composed : string :=
  "Caf" +:+ String "195" (String "169" EmptyString).

Definition Cafe_decomposed : string :=
  "Cafe" +:+ String "204" (String "129" EmptyString).

Definition schema_Cafes : @SchemaDef unit := {|
  documentDefMap :=
    [(Cafe_composed,
      {| name := Cafe_composed; isSingleton := false; fieldDefs := () |});
     (Cafe_decomposed,
      {| name := Cafe_decomposed; isSingleton := false; fieldDefs := () |})];
  objectDefMap := [];
|}.

Definition schema_Cafes_reordered : @SchemaDef unit := {|
  documentDefMap :=
    [(Cafe_decomposed,
      {| name := Cafe_decomposed; isSingleton := false; fieldDefs := () |});
     (Cafe_composed,
      {| name := Cafe_composed; isSingleton := false; fieldDefs := () |})];
  objectDefMap := [];
|}.

Definition cache_of_colliding_posts : Cache :=
  {| cacheItemsMap := [post "a/b" "h1"; post "a__b" "h2"] |}.

(** ** Properties *)

(** *** Naming *)

Lemma starts_with_digit_replace_all (id : string) :
  starts_with_digit (replace_all "/" "__" id) = starts_with_digit id.
Proof.
  destruct id as [|c rest]; [reflexivity|]. simpl.
  destruct (Ascii.eqb_spec c "/") as [->|Hne]; reflexivity.
Qed.

(** C5: for every id, padding with [_] and then replacing the slashes, as the
    code does, gives what the spec describes (replacing, then padding); the
    id [2024/post] becomes [_2024__post]. *)
Theorem idToFileName_replace_then_pad :
  (forall id : string, idToFileName id = fileNameForId_spec id)
  /\ idToFileName "2024/post" = "_2024__post".
Proof.
  split; [|reflexivity].
  intros id. unfold idToFileName, fileNameForId_spec,
    leftPadWithUnderscoreIfStartsWithNumber.
  rewrite starts_with_digit_replace_all.
  destruct (starts_with_digit id); reflexivity.
Qed.

Lemma ascii_lower_not_upper (c : ascii) : is_upper (ascii_lower c) = false.
Proof.
  unfold ascii_lower, is_upper.
  destruct ((65 <=? nat_of_ascii c)%nat && (nat_of_ascii c <=? 90)%nat) eqn:E;
    [|exact E].
  apply andb_true_iff in E as [Hlo%Nat.leb_le Hhi%Nat.leb_le].
  rewrite nat_ascii_embedding by lia.
  apply andb_false_iff. right. apply Nat.leb_gt. lia.
Qed.

Lemma ascii_upper_not_lower (c : ascii) : is_lower (ascii_upper c) = false.
Proof.
  unfold ascii_upper, is_lower.
  destruct ((97 <=? nat_of_ascii c)%nat && (nat_of_ascii c <=? 122)%nat) eqn:E;
    [|exact E].
  apply andb_true_iff in E as [Hlo%Nat.leb_le Hhi%Nat.leb_le].
  rewrite nat_ascii_embedding by lia.
  apply andb_false_iff. left. apply Nat.leb_gt. lia.
Qed.

Lemma lowercaseFirstChar_not_upper (str : string) :
  starts_with is_upper (lowercaseFirstChar str) = false.
Proof. destruct str; [reflexivity|apply ascii_lower_not_upper]. Qed.

Lemma uppercaseFirstChar_not_lower (str : string) :
  starts_with is_lower (uppercaseFirstChar str) = false.
Proof. destruct str; [reflexivity|apply ascii_upper_not_lower]. Qed.

(** C4: the data variable of a singleton type is the singular of the type
    name with its first character in lower case; that of a collection type
    is [all] followed by the plural with its first character in upper case.
    With [Author] its own singular, the singleton [Author] gives [author];
    with [Posts] the plural of [Post], the collection [Post] gives
    [allPosts]. *)
Theorem getDataVariableName_forms {FieldDefs : Type} `{!@Imports FieldDefs}
    (docDef : DocumentDef) :
  (isSingleton docDef = true ->
     getDataVariableName docDef
       = lowercaseFirstChar (inflection_singularize (name docDef))
     /\ starts_with is_upper (getDataVariableName docDef) = false)
  /\ (isSingleton docDef = false ->
        exists plural,
          getDataVariableName docDef = "all" +:+ plural
          /\ plural = uppercaseFirstChar (inflection_pluralize (name docDef))
          /\ starts_with is_lower plural = false)
  /\ (isSingleton docDef = true -> name docDef = "Author" ->
        inflection_singularize "Author" = "Author" ->
        getDataVariableName docDef = "author")
  /\ (isSingleton docDef = false -> name docDef = "Post" ->
        inflection_pluralize "Post" = "Posts" ->
        getDataVariableName docDef = "allPosts").
Proof.
  unfold getDataVariableName.
  split; [|split; [|split]].
  - intros ->. split; [reflexivity|apply lowercaseFirstChar_not_upper].
  - intros ->. eexists. split; [reflexivity|].
    split; [reflexivity|apply uppercaseFirstChar_not_lower].
  - intros -> -> ->. reflexivity.
  - intros -> -> ->. reflexivity.
Qed.

Lemma getDataVariableName_forms_witness :
  @getDataVariableName unit regular_imports Author = "author"
  /\ @getDataVariableName unit regular_imports Post = "allPosts".
Proof.
  split.
  - exact (proj1 (proj2 (proj2 (@getDataVariableName_forms unit regular_imports Author)))
             eq_refl eq_refl eq_refl).
  - exact (proj2 (proj2 (proj2 (@getDataVariableName_forms unit regular_imports Post)))
             eq_refl eq_refl eq_refl).
Defined.

Lemma getDataVariableName_Posts_singleton :
  @getDataVariableName unit regular_imports
    {| name := "Posts"; isSingleton := true; fieldDefs := () |} = "post".
Proof. reflexivity. Qed.

(** *** Rendered text *)

Lemma append_assoc (a b c : string) : (a +:+ b) +:+ c = a +:+ b +:+ c.
Proof.
  induction a as [|ch a IH]; [reflexivity|].
  change (String ch ((a +:+ b) +:+ c) = String ch (a +:+ b +:+ c)).
  by rewrite IH.
Qed.

Lemma append_empty_r (a : string) : a +:+ EmptyString = a.
Proof.
  induction a as [|ch a IH]; [reflexivity|].
  change (String ch (a +:+ EmptyString) = String ch a). by rewrite IH.
Qed.

Lemma contains_refl (a : string) : contains a a.
Proof. exists EmptyString, EmptyString. by rewrite append_empty_r. Qed.

Lemma contains_append_l (a b part : string) :
  contains b part -> contains (a +:+ b) part.
Proof.
  intros (before & after & ->). exists (a +:+ before), after.
  by rewrite append_assoc.
Qed.

Lemma contains_append_r (a b part : string) :
  contains a part -> contains (a +:+ b) part.
Proof.
  intros (before & after & ->). exists before, (after +:+ b).
  by rewrite !append_assoc.
Qed.

Lemma ends_with_append (a b tail : string) :
  ends_with b tail -> ends_with (a +:+ b) tail.
Proof.
  intros (before & ->). exists (a +:+ before). by rewrite append_assoc.
Qed.

Lemma join_cons_cons (sep p q : string) (rest : list string) :
  join sep (p :: q :: rest) = p +:+ sep +:+ join sep (q :: rest).
Proof. reflexivity. Qed.

Lemma contains_join (sep : string) (parts : list string) (part : string) :
  part ∈ parts -> contains (join sep parts) part.
Proof.
  induction parts as [|p [|q rest] IH]; intros Hin.
  - by apply elem_of_nil in Hin.
  - apply list_elem_of_singleton in Hin as ->. apply contains_refl.
  - rewrite join_cons_cons. apply elem_of_cons in Hin as [->|Hin].
    + apply contains_append_r, contains_refl.
    + by apply contains_append_l, contains_append_l, IH.
Qed.

Section RenderedModules.

Context {FieldDefs : Type} `{!@Imports FieldDefs}.

(** C6: the aggregate data entry module re-exports the barrel of every
    document type and ends with the declaration of [allDocuments], whose
    elements follow the iteration order of the document types: the data
    variable itself for a singleton, its spread for a collection.  For a
    singleton with variable [author] followed by a collection with variable
    [allPosts], the declared sequence is [[author, ...allPosts]]. *)
Theorem makeIndexJs_allDocuments (schemaDef : SchemaDef) :
  let docDefs := Object_values (documentDefMap schemaDef) in
  (forall docDef, docDef ∈ docDefs ->
     contains (makeIndexJs schemaDef)
       ("export * from './" +:+ getDataVariableName docDef +:+ ".js'"))
  /\ ends_with (makeIndexJs schemaDef)
       (LF +:+ ("export const allDocuments = ["
                +:+ join ", "
                      ((fun docDef =>
                          if isSingleton docDef then getDataVariableName docDef
                          else "..." +:+ getDataVariableName docDef) <$> docDefs)
                +:+ "]") +:+ LF)
  /\ (forall k1 k2 singleton collection,
        documentDefMap schemaDef = [(k1, singleton); (k2, collection)] ->
        isSingleton singleton = true ->
        getDataVariableName singleton = "author" ->
        isSingleton collection = false ->
        getDataVariableName collection = "allPosts" ->
        ends_with (makeIndexJs schemaDef)
          (LF +:+ "export const allDocuments = [author, ...allPosts]" +:+ LF)).
Proof.
  intros docDefs.
  assert (Hend : ends_with (makeIndexJs schemaDef)
       (LF +:+ ("export const allDocuments = ["
                +:+ join ", "
                      ((fun docDef =>
                          if isSingleton docDef then getDataVariableName docDef
                          else "..." +:+ getDataVariableName docDef) <$> docDefs)
                +:+ "]") +:+ LF)).
  { unfold makeIndexJs, lines. rewrite <- !list_fmap_compose.
    cbn [join]. do 12 apply ends_with_append.
    exists EmptyString. reflexivity. }
  split; [|split; [exact Hend|]].
  - intros docDef Hin. unfold makeIndexJs, lines.
    rewrite <- !list_fmap_compose. cbn [join].
    do 8 apply contains_append_l. apply contains_append_r.
    apply contains_join.
    apply (list_elem_of_fmap_2
             (fun d => "export * from './" +:+ getDataVariableName d +:+ ".js'")).
    exact Hin.
  - intros k1 k2 singleton collection Hmap Hs Hsv Hc Hcv.
    destruct Hend as [before Hend]. exists before. rewrite Hend.
    subst docDefs. rewrite Hmap. cbn [Object_values fmap list_fmap fst snd join].
    rewrite Hs, Hsv, Hc, Hcv. reflexivity.
Qed.

End RenderedModules.

Lemma makeIndexJs_allDocuments_witness :
  ends_with (@makeIndexJs unit regular_imports schema_Author_Post)
    (LF +:+ "export const allDocuments = [author, ...allPosts]" +:+ LF).
Proof.
  apply (proj2 (proj2 (@makeIndexJs_allDocuments unit regular_imports schema_Author_Post))
           "Author" "Post" Author Post); reflexivity.
Defined.

(** *** Sorting *)

Section Sorting.

Context {A : Type} (comparefn : A -> A -> Z).

Lemma sort_insert_Permutation (x : A) (l : list A) :
  sort_insert comparefn x l ≡ₚ x :: l.
Proof.
  induction l as [|y l IH]; [done|]. cbn [sort_insert].
  destruct (0 <? comparefn x y)%Z; [|done].
  rewrite IH. apply Permutation_swap.
Qed.

Lemma Array_sort_Permutation (l : list A) : Array_sort comparefn l ≡ₚ l.
Proof.
  unfold Array_sort. induction l as [|x l IH]; [done|]. cbn [foldr].
  by rewrite sort_insert_Permutation, IH.
Qed.

Context (Hconsistent : ConsistentComparator comparefn).

Lemma precedes_total (a b : A) : ¬ precedes comparefn a b -> precedes comparefn b a.
Proof.
  unfold precedes. intros Hab.
  pose proof (comparefn_antisym _ Hconsistent a b). lia.
Qed.

Lemma sort_insert_sorted (x : A) (l : list A) :
  StronglySorted (precedes comparefn) l ->
  StronglySorted (precedes comparefn) (sort_insert comparefn x l).
Proof.
  induction 1 as [|y l Hsorted IH Hall]; cbn [sort_insert].
  - repeat constructor.
  - destruct (Z.ltb_spec 0 (comparefn x y)) as [Hgt|Hle].
    + constructor; [exact IH|].
      rewrite sort_insert_Permutation. constructor; [|exact Hall].
      apply precedes_total. unfold precedes. lia.
    + constructor; [by constructor|].
      constructor; [exact Hle|].
      eapply Forall_impl; [exact Hall|].
      intros z Hyz. exact (comparefn_trans _ Hconsistent x y z Hle Hyz).
Qed.

Lemma Array_sort_sorted (l : list A) :
  StronglySorted (precedes comparefn) (Array_sort comparefn l).
Proof.
  unfold Array_sort. induction l as [|x l IH]; cbn [foldr].
  - constructor.
  - by apply sort_insert_sorted.
Qed.

Lemma sorted_Permutation_unique (l1 l2 : list A) :
  (forall a b, a ∈ l1 -> b ∈ l1 ->
     precedes comparefn a b -> precedes comparefn b a -> a = b) ->
  StronglySorted (precedes comparefn) l1 -> StronglySorted (precedes comparefn) l2 ->
  l1 ≡ₚ l2 -> l1 = l2.
Proof.
  intros Hanti Hs1. revert l2 Hanti.
  induction Hs1 as [|x l1 Hs1 IH Hall1]; intros l2 Hanti Hs2 Hperm.
  - by apply Permutation_nil_l in Hperm.
  - destruct Hs2 as [|y l2 Hs2 Hall2].
    + by apply Permutation_nil_r in Hperm.
    + assert (x = y) as ->.
      { assert (Hx : x ∈ y :: l2) by (rewrite <- Hperm; left).
        assert (Hy : y ∈ x :: l1) by (rewrite Hperm; left).
        apply elem_of_cons in Hx as [?|Hx]; [done|].
        apply elem_of_cons in Hy as [?|Hy]; [done|].
        apply Hanti; [left|by right| |].
        - rewrite Forall_forall in Hall1. by apply Hall1.
        - rewrite Forall_forall in Hall2. by apply Hall2. }
      f_equal. apply IH; [|exact Hs2|by apply (inj (cons y))].
      intros a b Ha Hb. apply Hanti; by right.
Qed.

(** The sorted array does not depend on the order of the input when no two
    of its elements are tied. *)
Lemma Array_sort_Permutation_invariant (l1 l2 : list A) :
  (forall a b, a ∈ l1 -> b ∈ l1 -> comparefn a b = 0%Z -> a = b) ->
  l1 ≡ₚ l2 -> Array_sort comparefn l1 = Array_sort comparefn l2.
Proof.
  intros Hties Hperm.
  apply sorted_Permutation_unique; try apply Array_sort_sorted.
  - intros a b Ha Hb Hab Hba. rewrite Array_sort_Permutation in Ha, Hb.
    apply Hties; [done..|]. unfold precedes in *.
    pose proof (comparefn_antisym _ Hconsistent a b). lia.
  - by rewrite !Array_sort_Permutation.
Qed.

End Sorting.

Lemma ConsistentComparator_on {A} (key : A -> string)
    (comparefn : string -> string -> Z) :
  ConsistentComparator comparefn ->
  ConsistentComparator (fun a b => comparefn (key a) (key b)).
Proof.
  intros [Hanti Htrans]. split.
  - intros a b. apply Hanti.
  - intros a b c. apply Htrans.
Qed.

Lemma NoDup_fmap_elem_inj {A B} (f : A -> B) (l : list A) (a b : A) :
  NoDup (f <$> l) -> a ∈ l -> b ∈ l -> f a = f b -> a = b.
Proof.
  induction l as [|x l IH]; intros Hnd Ha Hb Hab.
  - by apply elem_of_nil in Ha.
  - rewrite fmap_cons in Hnd. apply NoDup_cons in Hnd as [Hx Hnd].
    apply elem_of_cons in Ha as [->|Ha]; apply elem_of_cons in Hb as [->|Hb].
    + done.
    + exfalso. apply Hx. rewrite Hab. by apply list_elem_of_fmap_2.
    + exfalso. apply Hx. rewrite <- Hab. by apply list_elem_of_fmap_2.
    + by apply IH.
Qed.

Lemma DistinctNames_no_ties {A} (key : A -> string)
    (comparefn : string -> string -> Z) (l : list A) :
  DistinctNames comparefn (key <$> l) ->
  forall a b, a ∈ l -> b ∈ l -> comparefn (key a) (key b) = 0%Z -> a = b.
Proof.
  intros [Hnd Hdist] a b Ha Hb Hab.
  apply (NoDup_fmap_elem_inj key l); [done..|].
  apply Hdist; [by apply list_elem_of_fmap_2..|done].
Qed.

Lemma compare_lexical_consistent : ConsistentComparator compare_lexical.
Proof.
  split.
  - intros a b. unfold compare_lexical. rewrite (String.compare_antisym a b).
    by destruct (String.compare b a).
  - intros a b c Hab Hbc.
    assert (Hle : forall s t, (compare_lexical s t <= 0)%Z <-> String.le s t).
    { intros s t. unfold compare_lexical, String.le, String.leb.
      destruct (String.compare s t); cbn; split; (done || lia). }
    apply Hle. etrans; by apply Hle.
Qed.

Lemma compare_lexical_eq (a b : string) : compare_lexical a b = 0%Z -> a = b.
Proof.
  unfold compare_lexical. destruct (String.compare a b) eqn:Hcmp; [|done..].
  intros _. by apply String.compare_eq_iff.
Qed.

Ltac find_part :=
  first [ apply contains_refl
        | apply contains_append_r, contains_refl
        | apply contains_append_l; find_part ].

Section TypeDeclarations.

Context {FieldDefs : Type} `{!@Imports FieldDefs}.

Lemma sortedDocumentDefs_reordered (schemaDef reordered : SchemaDef) :
  ConsistentComparator localeCompare ->
  DistinctNames localeCompare (name <$> Object_values (documentDefMap schemaDef)) ->
  documentDefMap reordered ≡ₚ documentDefMap schemaDef ->
  sortedDocumentDefs reordered = sortedDocumentDefs schemaDef.
Proof.
  intros Hcmp Hnames Hperm. symmetry. unfold sortedDocumentDefs.
  apply Array_sort_Permutation_invariant.
  - by apply (ConsistentComparator_on name).
  - by apply DistinctNames_no_ties.
  - unfold Object_values. by rewrite Hperm.
Qed.

Lemma sortedObjectDefs_reordered (schemaDef reordered : SchemaDef) :
  ConsistentComparator localeCompare ->
  DistinctNames localeCompare (obj_name <$> Object_values (objectDefMap schemaDef)) ->
  objectDefMap reordered ≡ₚ objectDefMap schemaDef ->
  sortedObjectDefs reordered = sortedObjectDefs schemaDef.
Proof.
  intros Hcmp Hnames Hperm. symmetry. unfold sortedObjectDefs.
  apply Array_sort_Permutation_invariant.
  - by apply (ConsistentComparator_on obj_name).
  - by apply DistinctNames_no_ties.
  - unfold Object_values. by rewrite Hperm.
Qed.


End TypeDeclarations.



(** *** The package manifest *)

(** C8: the manifest is one fixed text.  Its [exports] has the two keys
    [./data] and [./types] and no other, each with an [import] target; its
    [typesVersions] maps [data] to [./data] and [types] to [./types]; its
    name and version are the literals [dot-contentlayer] and [0.0.0]; and
    whatever the documents, the schema, the target directory and the source
    plugin are, the first file of a cycle is [package.json] with this
    text. *)
Theorem makePackageJson_fixed :
  makePackageJson = packageJson_text
  /\ json_keys <$> json_get "exports" packageJson = Some ["./data"; "./types"]
  /\ json_get "exports" packageJson ≫= json_get "./data"
       = Some (JObject [("import", JString "./data/index.js")])
  /\ json_get "exports" packageJson ≫= json_get "./types"
       = Some (JObject [("import", JString "./types/index.js")])
  /\ json_get "typesVersions" packageJson ≫= json_get "*"
       = Some (JObject [("data", JArray [JString "./data"]);
                        ("types", JArray [JString "./types"])])
  /\ json_get "name" packageJson = Some (JString "dot-contentlayer")
  /\ json_get "version" packageJson = Some (JString "0.0.0")
  /\ (forall (FieldDefs : Type) (imports : @Imports FieldDefs) (cache : Cache)
        (schemaDef : SchemaDef) (targetPath : string)
        (sourcePluginType : SourcePluginType),
        match writeFilesForCache_plan cache schemaDef targetPath sourcePluginType with
        | Returns plan =>
            files plan !! 0%nat
              = Some {| filePath := path_join [targetPath; "package.json"];
                        content := packageJson_text;
                        documentHash := None |}
        | Throws _ => True
        end).
Proof.
  repeat (split; [reflexivity|]).
  intros FieldDefs imports cache schemaDef targetPath sourcePluginType.
  unfold writeFilesForCache_plan.
  destruct (map_throwing _ _); [reflexivity|exact I].
Qed.

(** *** Directories *)

Section Directories.

Context `{Host}.

(** C9: a directory creation that the file system refuses with the code
    [EEXIST] succeeds all the same; refused with any other code, or with no
    code at all, it fails with that very error; and when the file system
    succeeds so does the creation.  In each case the file system is asked
    once. *)
Theorem mkdir_tolerates_only_EEXIST (dirPath : string) (w : World) :
  (forall e w', fs_mkdir dirPath w = (Throws e, w') ->
     error_code e = Some "EEXIST" -> mkdir dirPath w = (Returns (), w'))
  /\ (forall e w', fs_mkdir dirPath w = (Throws e, w') ->
        error_code e ≠ Some "EEXIST" -> mkdir dirPath w = (Throws e, w'))
  /\ (forall w', fs_mkdir dirPath w = (Returns (), w') ->
        mkdir dirPath w = (Returns (), w'))
  /\ fsCalls (mkdir dirPath w).2 = fsCalls w ++ [FsMkdir dirPath].
Proof.
  unfold mkdir. split; [|split; [|split]].
  - intros e w' -> Hcode. by rewrite bool_decide_eq_false_2 by (by intros []).
  - intros e w' -> Hcode. by rewrite bool_decide_eq_true_2.
  - by intros w' ->.
  - unfold fs_mkdir. destruct (host_mkdir dirPath (hostState w)) as [[[]|e] h];
      [reflexivity|]. by case_bool_decide.
Qed.

End Directories.

Lemma mkdir_tolerates_only_EEXIST_witness :
  (@mkdir mem_host "out/data/Post" world_with_file).1 = Returns ()
  /\ (@mkdir mem_host "out/types" world_read_only).1
     = Throws (SystemError "EACCES").
Proof.
  split.
  - rewrite (proj1 (@mkdir_tolerates_only_EEXIST mem_host "out/data/Post" world_with_file)
               (SystemError "EEXIST")
               (@Build_World mem_host (hostState world_with_file)
                  [FsMkdir "out/data/Post"])
               eq_refl eq_refl).
    reflexivity.
  - rewrite (proj1 (proj2 (@mkdir_tolerates_only_EEXIST mem_host "out/types"
                             world_read_only))
               (SystemError "EACCES")
               (@Build_World mem_host (hostState world_read_only)
                  [FsMkdir "out/types"])
               eq_refl ltac:(discriminate)).
    reflexivity.
Defined.

(** *** The written-files cache *)

Section WrittenFiles.

Context `{Host}.

Lemma skip_test_spec (cache : WrittenFilesCache) (file : GeneratedFile) :
  (documentHash file ≠ None /\ cache !! filePath file = documentHash file)
  <-> skippable cache file.
Proof.
  unfold skippable. split.
  - intros [Hsome Heq]. destruct (documentHash file) as [hash|]; [|done]. eauto.
  - intros (hash & -> & ->). done.
Qed.

Lemma writeFile_skipped (cache : WrittenFilesCache) (file : GeneratedFile) (w : World) :
  skippable cache file ->
  writeFileWithWrittenFilesCache cache file w = (Returns (), cache, w).
Proof.
  intros Hskip%skip_test_spec. unfold writeFileWithWrittenFilesCache.
  by rewrite bool_decide_eq_true_2.
Qed.

Lemma writeFile_written (cache : WrittenFilesCache) (file : GeneratedFile) (w : World) :
  ¬ skippable cache file ->
  fsCalls (writeFileWithWrittenFilesCache cache file w).2
    = fsCalls w ++ [FsWriteFile (filePath file) (content file)].
Proof.
  intros Hskip. unfold writeFileWithWrittenFilesCache.
  rewrite bool_decide_eq_false_2 by (by rewrite skip_test_spec).
  unfold fs_writeFile.
  by destruct (host_writeFile _ _ _) as [[[]|e] h].
Qed.

Lemma snoc_ne {A} (l : list A) (x : A) : l ++ [x] ≠ l.
Proof.
  intros Heq. apply (f_equal length) in Heq.
  rewrite length_app in Heq. simpl in Heq. lia.
Qed.

(** C1: the cached write leaves the file system alone exactly when a hash
    was supplied and the cache holds that hash for the path, and then it
    changes nothing at all; in every other case it writes the file once.
    A call without a hash always writes. *)
Theorem write_skipped_iff_hash_cached
    (cache : WrittenFilesCache) (file : GeneratedFile) (w : World) :
  let after := writeFileWithWrittenFilesCache cache file w in
  (skippable cache file <-> fsCalls after.2 = fsCalls w)
  /\ (skippable cache file -> after = (Returns (), cache, w))
  /\ (¬ skippable cache file <->
        fsCalls after.2 = fsCalls w ++ [FsWriteFile (filePath file) (content file)])
  /\ (documentHash file = None ->
        fsCalls after.2 = fsCalls w ++ [FsWriteFile (filePath file) (content file)]).
Proof.
  intros after. subst after.
  destruct (decide (documentHash file ≠ None
                    /\ cache !! filePath file = documentHash file))
    as [Hskip|Hskip]; rewrite skip_test_spec in Hskip.
  - rewrite (writeFile_skipped _ _ _ Hskip). cbn [snd].
    split; [done|]. split; [done|]. split.
    + split; [done|]. intros Heq. symmetry in Heq. by apply snoc_ne in Heq.
    + intros Hnone. destruct Hskip as (hash & Hsome & _). congruence.
  - pose proof (writeFile_written _ _ w Hskip) as Hcalls.
    split; [|split; [done|split; [done|done]]].
    split; [done|]. rewrite Hcalls. intros Heq. by apply snoc_ne in Heq.
Qed.

(** C3: the cached write changes no cache entry of another path, whether it
    writes or not; and when the cache holds a hash for the path and the
    call brings a different one, the file is written again. *)
Theorem write_keeps_other_entries
    (cache : WrittenFilesCache) (file : GeneratedFile) (w : World) :
  let after := writeFileWithWrittenFilesCache cache file w in
  (forall other : string, other ≠ filePath file ->
     after.1.2 !! other = cache !! other)
  /\ (forall old new : string,
        cache !! filePath file = Some old -> documentHash file = Some new ->
        new ≠ old ->
        fsCalls after.2 = fsCalls w ++ [FsWriteFile (filePath file) (content file)]).
Proof.
  intros after. subst after. split.
  - intros other Hother. unfold writeFileWithWrittenFilesCache.
    case_bool_decide; [done|].
    destruct (fs_writeFile _ _ _) as [[[]|e] w']; [|done]. cbn [fst snd].
    destruct (documentHash file) as [hash|]; [|done].
    destruct (truthy _); [|done]. unfold Object_set.
    case_bool_decide; [done|]. by rewrite lookup_insert_ne.
  - intros old new Hold Hnew Hne. apply writeFile_written.
    intros (hash & Hsome & Hcached). congruence.
Qed.

(** X18: a hash that is not empty is recorded by a write that succeeds, and
    the same call made again is skipped.  (The path [__proto__] names no own
    property of a fresh cache and cannot become one by assignment.) *)
Lemma write_records_nonempty_hash
    (cache : WrittenFilesCache) (path data hash : string) (w : World) :
  let file := {| filePath := path; content := data; documentHash := Some hash |} in
  hash ≠ EmptyString ->
  path ≠ "__proto__" ->
  forall cache' w',
    writeFileWithWrittenFilesCache cache file w = (Returns (), cache', w') ->
    cache' !! path = Some hash
    /\ writeFileWithWrittenFilesCache cache' file w' = (Returns (), cache', w').
Proof.
  intros file Hhash Hpath cache' w' Hcall.
  assert (Hrec : cache' !! path = Some hash).
  { revert Hcall. unfold writeFileWithWrittenFilesCache. subst file. cbn.
    case_bool_decide as Hskip.
    - intros [= <- <-]. by destruct Hskip.
    - destruct (fs_writeFile _ _ _) as [[[]|e] w'']; [|done].
      destruct (String.eqb_spec hash EmptyString) as [?|_]; [done|]. cbn.
      intros [= <- <-]. unfold Object_set.
      rewrite bool_decide_eq_false_2 by (by intros []).
      by rewrite lookup_insert_eq. }
  split; [done|]. apply writeFile_skipped. by exists hash.
Qed.

(** C2, at the empty hash: starting from an empty cache, a write with the
    hash [""] leaves the cache empty, so the same call made again writes the
    file a second time. *)
Theorem write_with_empty_hash_is_repeated (path data : string) (w : World) :
  let file := {| filePath := path; content := data; documentHash := Some EmptyString |} in
  let first := writeFileWithWrittenFilesCache ∅ file w in
  let second := writeFileWithWrittenFilesCache first.1.2 file first.2 in
  first.1.2 = ∅
  /\ fsCalls second.2
     = fsCalls w ++ [FsWriteFile path data; FsWriteFile path data].
Proof.
  intros file first second.
  assert (Hno : ¬ skippable ∅ file).
  { intros (hash & _ & Hcached). by rewrite lookup_empty in Hcached. }
  assert (Hfirst : first.1.2 = ∅).
  { subst first. unfold writeFileWithWrittenFilesCache.
    rewrite bool_decide_eq_false_2 by (by rewrite skip_test_spec).
    by destruct (fs_writeFile _ _ _) as [[[]|e] w']. }
  split; [done|]. subst second. rewrite Hfirst.
  rewrite (writeFile_written _ _ _ Hno). subst first.
  rewrite (writeFile_written _ _ _ Hno). by rewrite <- app_assoc.
Qed.

End WrittenFiles.

Lemma write_keeps_other_entries_witness :
  (@writeFileWithWrittenFilesCache mem_host cache_of_two changed_file world_empty).1.2
    !! "out/data/Post/b.json" = Some "h2"
  /\ fsCalls
       (@writeFileWithWrittenFilesCache mem_host cache_of_two changed_file world_empty).2
     = [FsWriteFile "out/data/Post/a.json" "{}"].
Proof.
  split.
  - rewrite (proj1 (@write_keeps_other_entries mem_host cache_of_two changed_file
                      world_empty) "out/data/Post/b.json" ltac:(discriminate)).
    reflexivity.
  - apply (proj2 (@write_keeps_other_entries mem_host cache_of_two changed_file
                    world_empty) "h1" "h3" eq_refl eq_refl ltac:(discriminate)).
Defined.

(** *** Barrels of singleton types *)

Lemma map_throwing_Throws {A B} (f : A -> completion B) (arr : list A)
    (x : A) (e : JsError) :
  (forall y e', f y = Throws e' -> e' = e) ->
  x ∈ arr -> f x = Throws e -> map_throwing f arr = Throws e.
Proof.
  intros Honly Hin Hx. induction arr as [|a rest IH].
  - by apply elem_of_nil in Hin.
  - cbn [map_throwing]. destruct (f a) as [b|e'] eqn:Ha.
    + apply elem_of_cons in Hin as [->|Hin]; [congruence|].
      cbn [completion_bind]. by rewrite IH.
    + cbn [completion_bind]. by rewrite (Honly _ _ Ha).
Qed.

Lemma filter_none {A} (P : A -> Prop) `{!forall x, Decision (P x)} (l : list A) :
  (forall x, x ∈ l -> ¬ P x) -> filter P l = [].
Proof.
  intros Hnone. destruct (filter P l) as [|x rest] eqn:Hfilter; [done|].
  assert (Hx : x ∈ filter P l) by (rewrite Hfilter; left).
  apply list_elem_of_filter in Hx as [HP Hin]. by destruct (Hnone x Hin).
Qed.

Lemma idToFileName_at_undefined : idToFileName_at None = Throws TypeError.
Proof. reflexivity. Qed.

Section Barrels.

Context {FieldDefs : Type} `{!@Imports FieldDefs}.

Lemma makeDataExportFile_throws_only_TypeError
    (docDef : DocumentDef) (documentIds : list string) (e : JsError) :
  makeDataExportFile docDef documentIds = Throws e -> e = TypeError.
Proof.
  unfold makeDataExportFile. destruct (isSingleton docDef); [|done].
  destruct documentIds as [|documentId rest]; [|done].
  change (idToFileName_at ([] !! 0%nat)) with (idToFileName_at None).
  rewrite idToFileName_at_undefined. cbn. congruence.
Qed.

(** C10: for a singleton type the barrel is rendered only from a list of ids
    that is not empty.  From the empty list the renderer hands the missing
    first element to [idToFileName] and ends with a [TypeError], and a
    cycle whose schema has a singleton type with no document ends with that
    error before any directory or file is derived. *)
Theorem makeDataExportFile_singleton_without_document (docDef : DocumentDef) :
  isSingleton docDef = true ->
  makeDataExportFile docDef [] = Throws TypeError
  /\ (forall documentIds : list string,
        (exists text, makeDataExportFile docDef documentIds = Returns text)
        <-> documentIds ≠ [])
  /\ (forall (cache : Cache) (schemaDef : SchemaDef) (targetPath : string)
        (sourcePluginType : SourcePluginType),
        docDef ∈ Object_values (documentDefMap schemaDef) ->
        (forall item, item ∈ Object_values (cacheItemsMap cache) ->
           _typeName (CacheItem.document item) ≠ name docDef) ->
        writeFilesForCache_plan cache schemaDef targetPath sourcePluginType
          = Throws TypeError).
Proof.
  intros Hsingleton.
  assert (Hempty : makeDataExportFile docDef [] = Throws TypeError).
  { unfold makeDataExportFile. rewrite Hsingleton.
    change (idToFileName_at ([] !! 0%nat)) with (idToFileName_at None).
    by rewrite idToFileName_at_undefined. }
  split; [exact Hempty|]. split.
  - intros documentIds. split.
    + intros [text Htext] ->. congruence.
    + intros Hids. destruct documentIds as [|documentId rest]; [done|].
      unfold makeDataExportFile. rewrite Hsingleton. cbn. eauto.
  - intros cache schemaDef targetPath sourcePluginType Hdef Hnone.
    unfold writeFilesForCache_plan.
    erewrite (map_throwing_Throws _ _ docDef TypeError); [done| |exact Hdef|].
    + intros y e'. destruct (makeDataExportFile y _) as [text|e''] eqn:Hy; [done|].
      cbn. intros [= <-]. by apply makeDataExportFile_throws_only_TypeError in Hy.
    + rewrite filter_none; [by rewrite fmap_nil, Hempty|].
      intros d [item [-> Hitem]]%list_elem_of_fmap. by apply Hnone.
Qed.

(** A collection type has a barrel for every list of ids. *)
Lemma makeDataExportFile_collection (docDef : DocumentDef) (documentIds : list string) :
  isSingleton docDef = false ->
  exists text, makeDataExportFile docDef documentIds = Returns text.
Proof. intros Hcollection. unfold makeDataExportFile. rewrite Hcollection. eauto. Qed.

End Barrels.

Lemma makeDataExportFile_singleton_without_document_witness :
  @makeDataExportFile unit regular_imports Author [] = Throws TypeError
  /\ @writeFilesForCache_plan unit regular_imports cache_of_posts schema_Author_Post
       "out" "local" = Throws TypeError.
Proof.
  split.
  - exact (proj1 (@makeDataExportFile_singleton_without_document unit regular_imports
                    Author eq_refl)).
  - apply (proj2 (proj2 (@makeDataExportFile_singleton_without_document unit
                           regular_imports Author eq_refl))).
    + left.
    + intros item Hitem.
      repeat (apply elem_of_cons in Hitem as [->|Hitem]; [discriminate|]).
      by apply elem_of_nil in Hitem.
Defined.

(** *** Which files carry a hash *)

Lemma map_throwing_Returns_Forall {A B} (f : A -> completion B) (P : B -> Prop)
    (arr : list A) (bs : list B) :
  (forall a b, f a = Returns b -> P b) ->
  map_throwing f arr = Returns bs -> Forall P bs /\ length bs = length arr.
Proof.
  intros HP. revert bs. induction arr as [|a rest IH]; intros bs; cbn [map_throwing].
  - intros [= <-]. by split.
  - destruct (f a) as [b|e] eqn:Ha; [|done]. cbn [completion_bind].
    destruct (map_throwing f rest) as [bs'|e]; [|done]. cbn [completion_bind].
    intros [= <-]. destruct (IH bs' eq_refl) as [Hall Hlen].
    split; [constructor; eauto|]. cbn [length]. by rewrite Hlen.
Qed.

Section PlannedFiles.

Context {FieldDefs : Type} `{!@Imports FieldDefs}.

(** In the files of a cycle, the manifest, the four entry modules and the
    barrels (one per document type) carry no hash; after them come the
    documents, in the order of the cache, each with the hash the cache
    holds for it. *)
Lemma writeFilesForCache_plan_hashes (cache : Cache) (schemaDef : SchemaDef)
    (targetPath : string) (sourcePluginType : SourcePluginType) (plan : Plan) :
  writeFilesForCache_plan cache schemaDef targetPath sourcePluginType = Returns plan ->
  exists unhashed hashed,
    files plan = unhashed ++ hashed
    /\ Forall (fun file => documentHash file = None) unhashed
    /\ length unhashed = (5 + length (documentDefMap schemaDef))%nat
    /\ documentHash <$> hashed
       = (fun item => Some (CacheItem.documentHash item))
           <$> Object_values (cacheItemsMap cache).
Proof.
  unfold writeFilesForCache_plan.
  destruct (map_throwing _ _) as [barrels|e] eqn:Hbarrels; [|done].
  cbn [completion_bind]. intros [= <-]. cbn [files].
  apply (map_throwing_Returns_Forall _ (fun file => documentHash file = None))
    in Hbarrels as [Hall Hlen].
  - eexists (_ :: _ :: _ :: _ :: _ :: barrels), _. split; [reflexivity|].
    split; [by repeat constructor|]. split.
    + cbn [length]. rewrite Hlen. unfold Object_values. by rewrite length_fmap.
    + by rewrite <- list_fmap_compose.
  - intros docDef file. destruct (makeDataExportFile _ _); [|done].
    cbn [completion_bind]. by intros [= <-].
Qed.

End PlannedFiles.

(** ** Further properties of the generator *)

(** *** File names *)

Lemma occurs_append (c : ascii) (a b : string) :
  occurs c (a +:+ b) = occurs c a || occurs c b.
Proof.
  induction a as [|d a IH]; [reflexivity|].
  change (Ascii.eqb d c || occurs c (a +:+ b)
          = Ascii.eqb d c || occurs c a || occurs c b).
  rewrite IH. by destruct (Ascii.eqb d c).
Qed.

Lemma occurs_replace_all (c : ascii) (by_ str : string) :
  occurs c by_ = false -> occurs c (replace_all c by_ str) = false.
Proof.
  intros Hby. induction str as [|d str IH]; [reflexivity|].
  cbn [replace_all]. destruct (Ascii.eqb d c) eqn:Hd.
  - by rewrite occurs_append, Hby, IH.
  - cbn [occurs]. by rewrite Hd, IH.
Qed.

Lemma leftPad_never_starts_with_digit (str : string) :
  starts_with_digit (leftPadWithUnderscoreIfStartsWithNumber str) = false.
Proof.
  unfold leftPadWithUnderscoreIfStartsWithNumber.
  by destruct (starts_with_digit str) eqn:Hdigit.
Qed.

(** X1: the file name of an id is flat and can start an identifier: it has
    no [/] in it and does not start with a digit. *)
Theorem idToFileName_flat (id : string) :
  occurs "/" (idToFileName id) = false
  /\ starts_with_digit (idToFileName id) = false.
Proof.
  unfold idToFileName. split.
  - by apply occurs_replace_all.
  - rewrite starts_with_digit_replace_all.
    apply leftPad_never_starts_with_digit.
Qed.

Lemma unreplace_slashes_other (c : ascii) (str : string) :
  Ascii.eqb c "_" = false ->
  unreplace_slashes (String c str) = String c (unreplace_slashes str).
Proof.
  intros Hc. destruct str as [|d str]; [reflexivity|].
  cbn [unreplace_slashes]. by rewrite Hc.
Qed.

Lemma unreplace_slashes_two (c d : ascii) (str : string) :
  unreplace_slashes (String c (String d str))
  = if Ascii.eqb c "_" && Ascii.eqb d "_"
    then String "/" (unreplace_slashes str)
    else String c (unreplace_slashes (String d str)).
Proof. reflexivity. Qed.

Lemma unreplace_replace (str : string) :
  occurs "_" str = false ->
  unreplace_slashes (replace_all "/" "__" str) = str.
Proof.
  induction str as [|c str IH]; [reflexivity|].
  cbn [occurs]. intros [Hc Hstr]%orb_false_iff. cbn [replace_all].
  destruct (Ascii.eqb_spec c "/") as [->|Hslash].
  - change ("__" +:+ replace_all "/" "__" str)
      with (String "_" (String "_" (replace_all "/" "__" str))).
    rewrite unreplace_slashes_two. change (Ascii.eqb "_" "_") with true.
    cbn [andb]. by rewrite IH.
  - rewrite unreplace_slashes_other by done. by rewrite IH.
Qed.

Lemma unreplace_padded (c : ascii) (str : string) :
  is_digit c = true -> occurs "_" str = false ->
  unreplace_slashes (String "_" (replace_all "/" "__" (String c str)))
  = String "_" (String c str).
Proof.
  intros Hdigit Hstr.
  assert (Hc : Ascii.eqb c "/" = false).
  { destruct (Ascii.eqb_spec c "/") as [->|]; [discriminate Hdigit|done]. }
  assert (Hu : Ascii.eqb c "_" = false).
  { destruct (Ascii.eqb_spec c "_") as [->|]; [discriminate Hdigit|done]. }
  cbn [replace_all]. rewrite Hc.
  rewrite unreplace_slashes_two, Hu, andb_false_r.
  rewrite unreplace_slashes_other by done. by rewrite unreplace_replace.
Qed.

(** X2: an id written without [_] can be read back from its file name, so
    two such ids never share a file name. *)
Theorem idToFileName_read_back (id : string) :
  occurs "_" id = false ->
  fileNameToId (idToFileName id) = id
  /\ forall other : string,
       occurs "_" other = false -> idToFileName other = idToFileName id ->
       other = id.
Proof.
  assert (Hback : forall s, occurs "_" s = false -> fileNameToId (idToFileName s) = s).
  { intros s Hs. unfold fileNameToId, idToFileName,
      leftPadWithUnderscoreIfStartsWithNumber.
    destruct s as [|c s]; [reflexivity|].
    cbn [starts_with_digit]. destruct (is_digit c) eqn:Hdigit.
    - cbn [occurs] in Hs. apply orb_false_iff in Hs as [_ Hs].
      change ("_" +:+ String c s) with (String "_" (String c s)).
      change (replace_all "/" "__" (String "_" (String c s)))
        with (String "_" (replace_all "/" "__" (String c s))).
      by rewrite unreplace_padded.
    - rewrite unreplace_replace by done.
      cbn [occurs] in Hs. apply orb_false_iff in Hs as [Hc _]. by rewrite Hc. }
  intros Hid. split; [by apply Hback|].
  intros other Hother Heq.
  rewrite <- (Hback other Hother), <- (Hback id Hid). by rewrite Heq.
Qed.

Lemma idToFileName_read_back_witness :
  fileNameToId (idToFileName "2024/post") = "2024/post".
Proof.
  exact (proj1 (idToFileName_read_back "2024/post" eq_refl)).
Defined.

Lemma replace_all_append (c : ascii) (by_ a b : string) :
  replace_all c by_ (a +:+ b) = replace_all c by_ a +:+ replace_all c by_ b.
Proof.
  induction a as [|d a IH]; [reflexivity|].
  change (String d a +:+ b) with (String d (a +:+ b)). cbn [replace_all].
  rewrite IH. destruct (Ascii.eqb d c); [by rewrite append_assoc|reflexivity].
Qed.

Lemma idToFileName_slash_underscores (before after : string) :
  idToFileName (before +:+ "/" +:+ after)
  = idToFileName (before +:+ "__" +:+ after).
Proof.
  unfold idToFileName, leftPadWithUnderscoreIfStartsWithNumber.
  assert (Hdigit : starts_with_digit (before +:+ "/" +:+ after)
                   = starts_with_digit (before +:+ "__" +:+ after))
    by (by destruct before).
  rewrite Hdigit.
  destruct (starts_with_digit (before +:+ "__" +:+ after));
    by rewrite !replace_all_append.
Qed.

(** X3: a [/] in an id and a [__] in its place give the same file name: the
    two ids differ and their file names do not. *)
Theorem idToFileName_collision (before after : string) :
  before +:+ "/" +:+ after ≠ before +:+ "__" +:+ after
  /\ idToFileName (before +:+ "/" +:+ after)
     = idToFileName (before +:+ "__" +:+ after).
Proof.
  split; [|apply idToFileName_slash_underscores].
  intros Heq. by apply (inj (String.app before)) in Heq.
Qed.

(** *** The cache across calls *)

Section CacheAcrossCalls.

Context `{Host}.

(** X4: a write the file system refuses is not remembered.  The call fails
    with the error of the file system, the cache is as it was, and the same
    call made again goes to the file system again. *)
Theorem failed_write_is_not_recorded
    (cache : WrittenFilesCache) (file : GeneratedFile) (w w' : World) (e : JsError) :
  ¬ skippable cache file ->
  fs_writeFile (filePath file) (content file) w = (Throws e, w') ->
  writeFileWithWrittenFilesCache cache file w = (Throws e, cache, w')
  /\ fsCalls (writeFileWithWrittenFilesCache cache file w').2
     = fsCalls w ++ [FsWriteFile (filePath file) (content file);
                     FsWriteFile (filePath file) (content file)].
Proof.
  intros Hskip Hfs. split.
  - unfold writeFileWithWrittenFilesCache.
    rewrite bool_decide_eq_false_2 by (by rewrite skip_test_spec).
    by rewrite Hfs.
  - rewrite (writeFile_written _ _ _ Hskip).
    assert (Hcalls : fsCalls w'
                     = fsCalls w ++ [FsWriteFile (filePath file) (content file)]).
    { revert Hfs. unfold fs_writeFile.
      destruct (host_writeFile _ _ _) as [result h]. by intros [= _ <-]. }
    by rewrite Hcalls, <- app_assoc.
Qed.

(** X5: what a call can do to the cache.  Without a hash the cache is never
    touched; no call removes an entry; and a cache that changed has, after
    a write that succeeded, the supplied hash (which is not empty) at the
    path of the file and is otherwise as before. *)
Theorem cache_changes_only_by_recording
    (cache : WrittenFilesCache) (file : GeneratedFile) (w : World) :
  let after := writeFileWithWrittenFilesCache cache file w in
  (documentHash file = None -> after.1.2 = cache)
  /\ (forall path, is_Some (cache !! path) -> is_Some (after.1.2 !! path))
  /\ (after.1.2 ≠ cache ->
      exists hash,
        documentHash file = Some hash /\ hash ≠ EmptyString
        /\ after.1.1 = Returns ()
        /\ after.1.2 = <[filePath file := hash]> cache).
Proof.
  intros after.
  assert (Hcases : after.1.2 = cache
                   \/ exists hash,
                        documentHash file = Some hash /\ hash ≠ EmptyString
                        /\ after.1.1 = Returns ()
                        /\ after.1.2 = <[filePath file := hash]> cache).
  { subst after. unfold writeFileWithWrittenFilesCache.
    case_bool_decide; [by left|].
    destruct (fs_writeFile _ _ _) as [[[]|e] w']; [|by left]. cbn [fst snd].
    destruct (documentHash file) as [hash|] eqn:Hhash; [|by left].
    cbn [truthy]. destruct (String.eqb_spec hash EmptyString) as [->|Hne];
      cbn [negb]; [by left|].
    unfold Object_set. case_bool_decide; [by left|]. right. by exists hash. }
  split; [|split].
  - intros Hnone. destruct Hcases as [?|(hash & Hsome & _)]; [done|congruence].
  - intros path Hpath. destruct Hcases as [->|(hash & _ & _ & _ & ->)]; [done|].
    destruct (decide (filePath file = path)) as [<-|Hne].
    + rewrite lookup_insert_eq. eauto.
    + by rewrite lookup_insert_ne.
  - intros Hchanged. by destruct Hcases.
Qed.

End CacheAcrossCalls.

Lemma failed_write_is_not_recorded_witness :
  @writeFileWithWrittenFilesCache mem_host ∅ locked_file world_locked
  = (Throws (SystemError "EACCES"), ∅,
     @Build_World mem_host (hostState world_locked)
       [FsWriteFile "out/data/Post/a.json" "{}"]).
Proof.
  apply (@failed_write_is_not_recorded mem_host ∅ locked_file world_locked).
  - intros (hash & _ & Hcached). by rewrite lookup_empty in Hcached.
  - reflexivity.
Defined.

Lemma write_records_nonempty_hash_witness :
  (@writeFileWithWrittenFilesCache mem_host ∅ changed_file world_empty).1.2
    !! "out/data/Post/a.json" = Some "h3".
Proof.
  apply (@write_records_nonempty_hash mem_host ∅ "out/data/Post/a.json" "{}" "h3"
           world_empty ltac:(discriminate) ltac:(discriminate)
           (@writeFileWithWrittenFilesCache mem_host ∅ changed_file world_empty).1.2
           (@writeFileWithWrittenFilesCache mem_host ∅ changed_file world_empty).2).
  reflexivity.
Defined.

(** *** The files of a cycle *)

Lemma map_throwing_Returns_iff {A B} (f : A -> completion B) (arr : list A) :
  (exists bs, map_throwing f arr = Returns bs)
  <-> forall a, a ∈ arr -> exists b, f a = Returns b.
Proof.
  induction arr as [|a rest IH]; cbn [map_throwing].
  - split; [|by eauto]. intros _ a Ha. by apply elem_of_nil in Ha.
  - split.
    + intros [bs Hbs] x Hx. destruct (f a) as [b|e] eqn:Ha; [|done].
      cbn [completion_bind] in Hbs.
      destruct (map_throwing f rest) as [bs'|e] eqn:Hrest; [|done].
      apply elem_of_cons in Hx as [->|Hx]; [by eauto|].
      apply IH; by eauto.
    + intros Hall. destruct (Hall a) as [b ->]; [left|].
      destruct (proj2 IH) as [bs ->]; [|by eauto].
      intros x Hx. apply Hall. by right.
Qed.

Section CycleFiles.

Context {FieldDefs : Type} `{!@Imports FieldDefs}.

Lemma makeDataExportFile_Returns_iff (docDef : DocumentDef) (documentIds : list string) :
  (exists text, makeDataExportFile docDef documentIds = Returns text)
  <-> (isSingleton docDef = true -> documentIds ≠ []).
Proof.
  unfold makeDataExportFile. destruct (isSingleton docDef).
  - destruct documentIds as [|documentId rest].
    + change (idToFileName_at ([] !! 0%nat)) with (idToFileName_at None).
      rewrite idToFileName_at_undefined. cbn [completion_bind].
      split; [by intros [text ?]|]. intros Hne. by destruct Hne.
    + cbn. split; [done|by eauto].
  - split; [done|by eauto].
Qed.

Lemma writeFilesForCache_plan_shape (cache : Cache) (schemaDef : SchemaDef)
    (targetPath : string) (sourcePluginType : SourcePluginType) (plan : Plan) :
  writeFilesForCache_plan cache schemaDef targetPath sourcePluginType = Returns plan ->
  exists barrels,
    length barrels = length (documentDefMap schemaDef)
    /\ dirPaths plan
       = path_join [targetPath; "types"]
         :: ((fun d => path_join [targetPath; "data"; name d])
             <$> Object_values (documentDefMap schemaDef))
    /\ files plan
       = [ {| filePath := path_join [targetPath; "package.json"];
              content := makePackageJson; documentHash := None |};
           {| filePath := path_join [targetPath; "types"; "index.d.ts"];
              content := makeTypes schemaDef sourcePluginType; documentHash := None |};
           {| filePath := path_join [targetPath; "types"; "index.js"];
              content := makeHelperTypes; documentHash := None |};
           {| filePath := path_join [targetPath; "data"; "index.d.ts"];
              content := makeDataTypes schemaDef; documentHash := None |};
           {| filePath := path_join [targetPath; "data"; "index.js"];
              content := makeIndexJs schemaDef; documentHash := None |} ]
         ++ barrels
         ++ ((fun item =>
                {| content := JSON_stringify (document_json (CacheItem.document item));
                   filePath :=
                     path_join [targetPath; "data"; _typeName (CacheItem.document item);
                                idToFileName (_id (CacheItem.document item)) +:+ ".json"];
                   documentHash := Some (CacheItem.documentHash item) |})
             <$> Object_values (cacheItemsMap cache)).
Proof.
  unfold writeFilesForCache_plan.
  destruct (map_throwing _ _) as [barrels|e] eqn:Hbarrels; [|done].
  cbn [completion_bind]. intros [= <-]. exists barrels.
  split; [|by split].
  apply (map_throwing_Returns_Forall _ (fun _ => True)) in Hbarrels as [_ ->];
    [|done]. unfold Object_values. by rewrite length_fmap.
Qed.

(** X6: a cycle derives its files exactly when every singleton type of the
    schema has a document in the cache; it then asks for one directory per
    document type besides [types], and plans five fixed files, one barrel
    per document type and one JSON file per cached document. *)
Theorem writeFilesForCache_plan_succeeds_iff (cache : Cache) (schemaDef : SchemaDef)
    (targetPath : string) (sourcePluginType : SourcePluginType) :
  ((exists plan,
      writeFilesForCache_plan cache schemaDef targetPath sourcePluginType
        = Returns plan)
   <-> forall docDef,
         docDef ∈ Object_values (documentDefMap schemaDef) ->
         isSingleton docDef = true ->
         exists item,
           item ∈ Object_values (cacheItemsMap cache)
           /\ _typeName (CacheItem.document item) = name docDef)
  /\ forall plan,
       writeFilesForCache_plan cache schemaDef targetPath sourcePluginType
         = Returns plan ->
       length (dirPaths plan) = (1 + length (documentDefMap schemaDef))%nat
       /\ length (files plan)
          = (5 + length (documentDefMap schemaDef)
               + length (cacheItemsMap cache))%nat.
Proof.
  split.
  - assert (Hids : forall docDef : @DocumentDef FieldDefs,
              _id <$> filter (fun d => _typeName d = name docDef)
                        (CacheItem.document <$> Object_values (cacheItemsMap cache))
              ≠ []
              <-> exists item,
                    item ∈ Object_values (cacheItemsMap cache)
                    /\ _typeName (CacheItem.document item) = name docDef).
    { intros docDef. split.
      - intros Hne.
        destruct (filter _ _) as [|d rest] eqn:Hfilter; [done|].
        assert (Hd : d ∈ filter (fun d => _typeName d = name docDef)
                       (CacheItem.document <$> Object_values (cacheItemsMap cache)))
          by (rewrite Hfilter; left).
        apply list_elem_of_filter in Hd as [Htype Hd].
        apply list_elem_of_fmap in Hd as (item & -> & Hitem). eauto.
      - intros (item & Hitem & Htype) Hnil.
        apply fmap_nil_inv in Hnil.
        assert (Hd : CacheItem.document item
                     ∈ filter (fun d => _typeName d = name docDef)
                         (CacheItem.document <$> Object_values (cacheItemsMap cache))).
        { apply list_elem_of_filter. split; [done|].
          by apply list_elem_of_fmap_2. }
        rewrite Hnil in Hd. by apply elem_of_nil in Hd. }
    unfold writeFilesForCache_plan.
    destruct (map_throwing _ _) as [barrels|e] eqn:Hbarrels.
    + split; [|cbn [completion_bind]; by eauto].
      intros _ docDef Hdef Hsingleton. apply Hids.
      destruct (proj1 (map_throwing_Returns_iff _ _) (ex_intro _ _ Hbarrels)
                  docDef Hdef) as [file Hfile].
      cbn beta in Hfile.
      destruct (makeDataExportFile docDef _) as [text|e] eqn:Htext; [|done].
      exact (proj1 (makeDataExportFile_Returns_iff _ _) (ex_intro _ _ Htext)
               Hsingleton).
    + split; [by intros [plan ?]|]. intros Hall. exfalso.
      match type of Hbarrels with
      | map_throwing ?f ?arr = _ =>
          destruct (proj2 (map_throwing_Returns_iff f arr)) as [bs Hbs]
      end; [|congruence].
      intros docDef Hdef. cbn beta.
      match goal with
      | |- context [makeDataExportFile docDef ?ids] =>
          destruct (proj2 (makeDataExportFile_Returns_iff docDef ids))
            as [text Htext]
      end.
      * intros Hsingleton. apply Hids. by apply Hall.
      * rewrite Htext. cbn [completion_bind]. by eauto.
  - intros plan (barrels & Hlen & -> & ->)%writeFilesForCache_plan_shape.
    cbn [length]. rewrite !length_app, !length_fmap, Hlen.
    unfold Object_values. rewrite !length_fmap. cbn [length]. lia.
Qed.

(** X7: a schema without document types still has its entry modules under
    [data] planned, and the JSON file of every cached document, while
    [types] is the only directory asked for. *)
Theorem writeFilesForCache_plan_without_document_types (cache : Cache)
    (schemaDef : SchemaDef) (targetPath : string)
    (sourcePluginType : SourcePluginType) :
  documentDefMap schemaDef = [] ->
  exists plan,
    writeFilesForCache_plan cache schemaDef targetPath sourcePluginType = Returns plan
    /\ dirPaths plan = [path_join [targetPath; "types"]]
    /\ filePath <$> take 5 (files plan)
       = [path_join [targetPath; "package.json"];
          path_join [targetPath; "types"; "index.d.ts"];
          path_join [targetPath; "types"; "index.js"];
          path_join [targetPath; "data"; "index.d.ts"];
          path_join [targetPath; "data"; "index.js"]]
    /\ filePath <$> drop 5 (files plan)
       = (fun item =>
            path_join [targetPath; "data"; _typeName (CacheItem.document item);
                       idToFileName (_id (CacheItem.document item)) +:+ ".json"])
         <$> Object_values (cacheItemsMap cache).
Proof.
  intros Hempty. unfold writeFilesForCache_plan. rewrite Hempty.
  cbn [Object_values fmap list_fmap map_throwing completion_bind].
  eexists. split; [reflexivity|]. cbn [dirPaths files].
  split; [reflexivity|]. split; [reflexivity|].
  cbn [app drop]. rewrite drop_0. by rewrite <- list_fmap_compose.
Qed.

(** X8: two documents of one type whose ids differ only by a [/] against a
    [__] are planned as two JSON files at one and the same path: the file
    of each document stands at the place of the document in the cache,
    after the fixed files and the barrels, with the hash of that
    document. *)
Theorem colliding_ids_share_a_path (cache : Cache) (schemaDef : SchemaDef)
    (targetPath : string) (sourcePluginType : SourcePluginType) (plan : Plan)
    (i j : nat) (x y : CacheItem.t) (before after : string) :
  writeFilesForCache_plan cache schemaDef targetPath sourcePluginType = Returns plan ->
  Object_values (cacheItemsMap cache) !! i = Some x ->
  Object_values (cacheItemsMap cache) !! j = Some y ->
  _typeName (CacheItem.document x) = _typeName (CacheItem.document y) ->
  _id (CacheItem.document x) = before +:+ "/" +:+ after ->
  _id (CacheItem.document y) = before +:+ "__" +:+ after ->
  exists fx fy,
    files plan !! (5 + length (documentDefMap schemaDef) + i)%nat = Some fx
    /\ files plan !! (5 + length (documentDefMap schemaDef) + j)%nat = Some fy
    /\ filePath fx = filePath fy
    /\ documentHash fx = Some (CacheItem.documentHash x)
    /\ documentHash fy = Some (CacheItem.documentHash y).
Proof.
  intros (barrels & Hlen & _ & ->)%writeFilesForCache_plan_shape Hx Hy Htype Hidx Hidy.
  assert (Hat : forall k item,
            Object_values (cacheItemsMap cache) !! k = Some item ->
            exists file,
              ([ {| filePath := path_join [targetPath; "package.json"];
                    content := makePackageJson; documentHash := None |};
                 {| filePath := path_join [targetPath; "types"; "index.d.ts"];
                    content := makeTypes schemaDef sourcePluginType;
                    documentHash := None |};
                 {| filePath := path_join [targetPath; "types"; "index.js"];
                    content := makeHelperTypes; documentHash := None |};
                 {| filePath := path_join [targetPath; "data"; "index.d.ts"];
                    content := makeDataTypes schemaDef; documentHash := None |};
                 {| filePath := path_join [targetPath; "data"; "index.js"];
                    content := makeIndexJs schemaDef; documentHash := None |} ]
               ++ barrels
               ++ ((fun item =>
                      {| content :=
                           JSON_stringify (document_json (CacheItem.document item));
                         filePath :=
                           path_join [targetPath; "data";
                                      _typeName (CacheItem.document item);
                                      idToFileName (_id (CacheItem.document item))
                                        +:+ ".json"];
                         documentHash := Some (CacheItem.documentHash item) |})
                   <$> Object_values (cacheItemsMap cache)))
              !! (5 + length (documentDefMap schemaDef) + k)%nat = Some file
              /\ filePath file
                 = path_join [targetPath; "data"; _typeName (CacheItem.document item);
                              idToFileName (_id (CacheItem.document item)) +:+ ".json"]
              /\ documentHash file = Some (CacheItem.documentHash item)).
  { intros k item Hitem.
    rewrite lookup_app_r by (cbn [length]; lia).
    rewrite lookup_app_r by (cbn [length]; lia).
    cbn [length]. rewrite Hlen.
    replace (5 + length (documentDefMap schemaDef) + k - 5
             - length (documentDefMap schemaDef))%nat with k by lia.
    rewrite list_lookup_fmap, Hitem. cbn [fmap option_fmap option_map].
    eexists. split; [reflexivity|]. by split. }
  destruct (Hat i x Hx) as (fx & Hfx & Hpx & Hhx).
  destruct (Hat j y Hy) as (fy & Hfy & Hpy & Hhy).
  exists fx, fy. split; [exact Hfx|]. split; [exact Hfy|].
  split; [|by split].
  rewrite Hpx, Hpy, Htype, Hidx, Hidy. by rewrite idToFileName_slash_underscores.
Qed.

End CycleFiles.

Lemma writeFilesForCache_plan_without_document_types_witness :
  exists plan,
    @writeFilesForCache_plan unit regular_imports cache_of_posts schema_of_objects
      "out" "local" = Returns plan
    /\ dirPaths plan = ["out/types"].
Proof.
  destruct (@writeFilesForCache_plan_without_document_types unit regular_imports
              cache_of_posts schema_of_objects "out" "local" eq_refl)
    as (plan & Hplan & Hdirs & _).
  exists plan. split; [exact Hplan|exact Hdirs].
Defined.

Lemma colliding_ids_share_a_path_witness :
  exists plan fx fy,
    @writeFilesForCache_plan unit regular_imports cache_of_colliding_posts schema_Post
      "out" "local" = Returns plan
    /\ files plan !! 6%nat = Some fx /\ files plan !! 7%nat = Some fy
    /\ filePath fx = filePath fy
    /\ documentHash fx = Some "h1" /\ documentHash fy = Some "h2".
Proof.
  destruct (@writeFilesForCache_plan unit regular_imports cache_of_colliding_posts
              schema_Post "out" "local") as [plan|e] eqn:Hplan;
    [|vm_compute in Hplan; discriminate Hplan].
  destruct (@colliding_ids_share_a_path unit regular_imports cache_of_colliding_posts
              schema_Post "out" "local" plan 0%nat 1%nat
              (post "a/b" "h1").2 (post "a__b" "h2").2 "a" "b" Hplan)
    as (fx & fy & Hx & Hy & Hpath & Hhx & Hhy); [reflexivity..|].
  exists plan, fx, fy. by repeat split.
Defined.

(** *** Barrels and entry modules *)

Lemma append_empty_l (a : string) : EmptyString +:+ a = a.
Proof. reflexivity. Qed.

Lemma begins_with_here (head rest : string) : begins_with (head +:+ rest) head.
Proof. by exists rest. Qed.

Lemma begins_with_append (a b head : string) :
  begins_with b head -> begins_with (a +:+ b) (a +:+ head).
Proof. intros [rest ->]. exists rest. by rewrite append_assoc. Qed.

Lemma contains_begins_with (text part : string) :
  begins_with text part -> contains text part.
Proof. intros [rest ->]. by exists EmptyString, rest. Qed.

Lemma contains_join_line (sep rest : string) (parts : list string) (part : string) :
  part ∈ parts -> contains (join sep parts +:+ sep +:+ rest) (part +:+ sep).
Proof.
  induction parts as [|p [|q parts] IH]; intros Hin.
  - by apply elem_of_nil in Hin.
  - apply list_elem_of_singleton in Hin as ->. cbn [join].
    apply contains_begins_with. rewrite <- append_assoc. apply begins_with_here.
  - rewrite join_cons_cons, !append_assoc.
    apply elem_of_cons in Hin as [->|Hin].
    + apply contains_begins_with. rewrite <- (append_assoc p sep).
      apply begins_with_here.
    + by apply contains_append_l, contains_append_l, IH.
Qed.

Section Barrels2.

Context {FieldDefs : Type} `{!@Imports FieldDefs}.

(** X9: the barrel of a singleton type is made from the first id alone: the
    ids after it change nothing, and the module re-exports the JSON file of
    that first id. *)
Theorem makeDataExportFile_singleton_first_id (docDef : DocumentDef)
    (documentId : string) (others : list string) :
  isSingleton docDef = true ->
  makeDataExportFile docDef (documentId :: others)
    = makeDataExportFile docDef [documentId]
  /\ exists text,
       makeDataExportFile docDef (documentId :: others) = Returns text
       /\ contains text
            ("export { default as " +:+ getDataVariableName docDef
             +:+ " } from './" +:+ name docDef +:+ "/"
             +:+ idToFileName documentId +:+ ".json'").
Proof.
  intros Hsingleton. unfold makeDataExportFile. rewrite Hsingleton.
  split; [reflexivity|]. cbn. eexists. split; [reflexivity|].
  apply contains_append_l, contains_append_l, contains_append_r, contains_refl.
Qed.

(** X10: the barrel of a collection type exists for every list of ids, the
    empty one included; it imports the JSON file of every id under the
    variable made from the id, and ends by exporting these variables as one
    array in the order of the ids. *)
Theorem makeDataExportFile_collection_barrel (docDef : DocumentDef)
    (documentIds : list string) :
  isSingleton docDef = false ->
  exists text,
    makeDataExportFile docDef documentIds = Returns text
    /\ (forall id, id ∈ documentIds ->
          contains text
            (("import " +:+ makeVariableName id +:+ " from './" +:+ name docDef
              +:+ "/" +:+ idToFileName id +:+ ".json'") +:+ LF))
    /\ ends_with text
         (LF +:+ ("export const " +:+ getDataVariableName docDef +:+ " = ["
                  +:+ join ", " (makeVariableName <$> documentIds) +:+ "]")
          +:+ LF).
Proof.
  intros Hcollection. unfold makeDataExportFile. rewrite Hcollection.
  eexists. split; [reflexivity|]. unfold lines. cbn [join]. split.
  - intros id Hid. do 4 apply contains_append_l.
    apply contains_join_line.
    apply (list_elem_of_fmap_2
             (fun id => "import " +:+ makeVariableName id +:+ " from './"
                        +:+ name docDef +:+ "/" +:+ idToFileName id +:+ ".json'")).
    exact Hid.
  - do 7 apply ends_with_append. exists EmptyString. reflexivity.
Qed.

(** X11: the data type-declaration module imports the names of the
    document types in iteration order and declares one constant per type,
    of the type itself for a singleton and of its array type for a
    collection. *)
Theorem makeDataTypes_declarations (schemaDef : SchemaDef) :
  contains (makeDataTypes schemaDef)
    ("import { " +:+ join ", " (name <$> Object_values (documentDefMap schemaDef))
     +:+ ", DocumentTypes } from '../types'")
  /\ forall docDef,
       docDef ∈ Object_values (documentDefMap schemaDef) ->
       contains (makeDataTypes schemaDef)
         (("export declare const " +:+ getDataVariableName docDef +:+ ": "
           +:+ name docDef
           +:+ (if isSingleton docDef then EmptyString else "[]")) +:+ LF).
Proof.
  unfold makeDataTypes, lines. rewrite <- !list_fmap_compose. cbn [join]. split.
  - find_part.
  - intros docDef Hdef. do 8 apply contains_append_l.
    apply contains_join_line.
    apply (list_elem_of_fmap_2
             (fun docDef => "export declare const " +:+ getDataVariableName docDef
                            +:+ ": " +:+ name docDef
                            +:+ (if isSingleton docDef then EmptyString else "[]"))).
    exact Hdef.
Qed.

(** X12: for a schema without document types the entry modules are still
    rendered: the data module declares an empty [allDocuments], and the
    import of the data type-declaration module starts with a bare comma. *)
Theorem entry_modules_without_document_types (schemaDef : SchemaDef) :
  documentDefMap schemaDef = [] ->
  ends_with (makeIndexJs schemaDef) (LF +:+ "export const allDocuments = []" +:+ LF)
  /\ contains (makeDataTypes schemaDef)
       (LF +:+ "import { , DocumentTypes } from '../types'" +:+ LF).
Proof.
  intros Hempty. unfold makeIndexJs, makeDataTypes, lines. rewrite Hempty.
  cbn [Object_values fmap list_fmap join]. split.
  - do 12 apply ends_with_append. exists EmptyString. reflexivity.
  - exists ("// " +:+ autogeneratedNote +:+ LF),
      (LF +:+ LF +:+ LF
       +:+ "export declare const allDocuments: DocumentTypes[]" +:+ LF +:+ LF).
    reflexivity.
Qed.

(** X13: the type-declaration module imports the raw types of the source
    plugin that made the schema: those of [local] or of [contentful], and
    for any other plugin type nothing, the line staying empty. *)
Theorem makeTypes_raw_type_import (schemaDef : SchemaDef)
    (sourcePluginType : SourcePluginType) :
  exists import_line,
    begins_with (makeTypes schemaDef sourcePluginType)
      ("// " +:+ autogeneratedNote +:+ LF
       +:+ LF
       +:+ "import type { Markdown, MDX } from 'contentlayer/core'" +:+ LF
       +:+ import_line +:+ LF
       +:+ LF
       +:+ "export { isType } from 'contentlayer/client'" +:+ LF)
    /\ (sourcePluginType = "local" ->
        import_line = "import * as Local from 'contentlayer/source-local'")
    /\ (sourcePluginType = "contentful" ->
        import_line = "import * as Contentful from '@contentlayer/source-contentful'")
    /\ (sourcePluginType ≠ "local" -> sourcePluginType ≠ "contentful" ->
        import_line = EmptyString).
Proof.
  exists (if String.eqb sourcePluginType "local"
          then "import * as Local from 'contentlayer/source-local'"
          else if String.eqb sourcePluginType "contentful"
               then "import * as Contentful from '@contentlayer/source-contentful'"
               else EmptyString).
  split.
  - unfold makeTypes, lines. cbn [join]. rewrite !append_empty_l.
    rewrite (append_assoc "// " autogeneratedNote).
    do 10 apply begins_with_append. apply begins_with_here.
  - split; [|split].
    + by intros ->.
    + by intros ->.
    + intros Hlocal Hcontentful.
      destruct (String.eqb_spec sourcePluginType "local"); [done|].
      by destruct (String.eqb_spec sourcePluginType "contentful").
Qed.

(** X14: a schema without object types has [never] for the union of the
    object types, and one without document types an empty union of the
    document types and an empty type map. *)
Theorem makeTypes_without_types (schemaDef : SchemaDef)
    (sourcePluginType : SourcePluginType) :
  (objectDefMap schemaDef = [] ->
   contains (makeTypes schemaDef sourcePluginType)
     (LF +:+ "export type ObjectTypes = never" +:+ LF))
  /\ (documentDefMap schemaDef = [] ->
      contains (makeTypes schemaDef sourcePluginType)
        (LF +:+ "export type DocumentTypes = " +:+ LF)
      /\ contains (makeTypes schemaDef sourcePluginType)
           ("export type DocumentTypeMap = {" +:+ LF +:+ LF +:+ "}" +:+ LF)).
Proof.
  split.
  - intros Hempty. unfold makeTypes, lines, sortedObjectDefs. rewrite Hempty.
    cbn [Object_values fmap list_fmap Array_sort foldr length Nat.ltb Nat.leb join].
    do 61 apply contains_append_l. apply contains_begins_with.
    do 2 apply begins_with_append. apply begins_with_here.
  - intros Hempty. unfold makeTypes, lines, sortedDocumentDefs. rewrite Hempty.
    cbn [Object_values fmap list_fmap Array_sort foldr join]. split.
    + do 55 apply contains_append_l. apply contains_begins_with.
      rewrite append_assoc, append_empty_l.
      do 2 apply begins_with_append. apply begins_with_here.
    + do 42 apply contains_append_l. apply contains_begins_with.
      rewrite !append_empty_l.
      do 4 apply begins_with_append. apply begins_with_here.
Qed.

End Barrels2.

Lemma makeDataExportFile_singleton_first_id_witness :
  @makeDataExportFile unit regular_imports Author ["me"; "you"]
  = @makeDataExportFile unit regular_imports Author ["me"].
Proof.
  exact (proj1 (@makeDataExportFile_singleton_first_id unit regular_imports Author
                  "me" ["you"] eq_refl)).
Defined.

Lemma makeDataExportFile_collection_barrel_witness :
  exists text,
    @makeDataExportFile unit regular_imports Post ["2024/post"; "hello"] = Returns text
    /\ ends_with text (LF +:+ "export const allPosts = [_2024__post, hello]" +:+ LF).
Proof.
  destruct (@makeDataExportFile_collection_barrel unit regular_imports Post
              ["2024/post"; "hello"] eq_refl) as (text & Htext & _ & Hend).
  exists text. split; [exact Htext|exact Hend].
Defined.

Lemma entry_modules_without_document_types_witness :
  ends_with (@makeIndexJs unit regular_imports schema_of_objects)
    (LF +:+ "export const allDocuments = []" +:+ LF).
Proof.
  exact (proj1 (@entry_modules_without_document_types unit regular_imports
                  schema_of_objects eq_refl)).
Defined.

(** *** More on names and entry modules *)

Lemma replace_all_absent (c : ascii) (by_ str : string) :
  occurs c str = false -> replace_all c by_ str = str.
Proof.
  induction str as [|d str IH]; [reflexivity|].
  cbn [occurs replace_all]. intros [Hd Hstr]%orb_false_iff.
  by rewrite Hd, IH.
Qed.

(** X15: an id that is a flat file name already (no [/], no digit in front)
    is its own file name; so making the file name of a file name changes
    nothing. *)
Theorem idToFileName_fixes_file_names (id : string) :
  (occurs "/" id = false -> starts_with_digit id = false -> idToFileName id = id)
  /\ idToFileName (idToFileName id) = idToFileName id.
Proof.
  assert (Hfix : forall s, occurs "/" s = false -> starts_with_digit s = false ->
                           idToFileName s = s).
  { intros s Hslash Hdigit.
    unfold idToFileName, leftPadWithUnderscoreIfStartsWithNumber.
    rewrite Hdigit. by apply replace_all_absent. }
  split; [apply Hfix|]. apply Hfix.
  - by apply occurs_replace_all.
  - unfold idToFileName. rewrite starts_with_digit_replace_all.
    apply leftPad_never_starts_with_digit.
Qed.

Lemma map_throwing_Returns_Forall2 {A B} (f : A -> completion B)
    (arr : list A) (bs : list B) :
  map_throwing f arr = Returns bs -> Forall2 (fun a b => f a = Returns b) arr bs.
Proof.
  revert bs. induction arr as [|a rest IH]; intros bs; cbn [map_throwing].
  - intros [= <-]. constructor.
  - destruct (f a) as [b|e] eqn:Ha; [|done]. cbn [completion_bind].
    destruct (map_throwing f rest) as [bs'|e]; [|done]. cbn [completion_bind].
    intros [= <-]. constructor; [done|by apply IH].
Qed.

Section EntryModules.

Context {FieldDefs : Type} `{!@Imports FieldDefs}.

(** X16: the aggregate data entry module imports the data variable of
    every document type from the barrel of that type. *)
Theorem makeIndexJs_imports (schemaDef : SchemaDef) (docDef : DocumentDef) :
  docDef ∈ Object_values (documentDefMap schemaDef) ->
  contains (makeIndexJs schemaDef)
    (("import { " +:+ getDataVariableName docDef +:+ " } from './"
      +:+ getDataVariableName docDef +:+ ".js'") +:+ LF).
Proof.
  intros Hdef. unfold makeIndexJs, lines. rewrite <- !list_fmap_compose.
  cbn [join]. do 10 apply contains_append_l. apply contains_join_line.
  apply (list_elem_of_fmap_2
           (fun d => "import { " +:+ getDataVariableName d +:+ " } from './"
                     +:+ getDataVariableName d +:+ ".js'")).
  exact Hdef.
Qed.

(** X17: in the files of a cycle the barrel of the [i]-th document type
    comes [i] places after the five fixed files, at [data/<variable>.js],
    without a hash; it is rendered from the ids of the cached documents of
    that type, in the order of the cache, and of no other document. *)
Theorem writeFilesForCache_plan_barrels (cache : Cache) (schemaDef : SchemaDef)
    (targetPath : string) (sourcePluginType : SourcePluginType) (plan : Plan)
    (i : nat) (docDef : DocumentDef) :
  writeFilesForCache_plan cache schemaDef targetPath sourcePluginType = Returns plan ->
  Object_values (documentDefMap schemaDef) !! i = Some docDef ->
  exists text,
    makeDataExportFile docDef
      (_id <$> filter (fun d => _typeName d = name docDef)
                 (CacheItem.document <$> Object_values (cacheItemsMap cache)))
      = Returns text
    /\ files plan !! (5 + i)%nat
       = Some {| filePath := path_join [targetPath; "data";
                                        getDataVariableName docDef +:+ ".js"];
                 content := text;
                 documentHash := None |}.
Proof.
  unfold writeFilesForCache_plan.
  destruct (map_throwing _ _) as [barrels|e] eqn:Hbarrels; [|done].
  cbn [completion_bind]. intros [= <-] Hdef. cbn [files].
  apply map_throwing_Returns_Forall2 in Hbarrels.
  destruct (Forall2_lookup_l _ _ _ _ _ Hbarrels Hdef) as (file & Hfile & Hrender).
  cbn beta in Hrender.
  destruct (makeDataExportFile docDef _) as [text|e]; [|done].
  cbn [completion_bind] in Hrender. injection Hrender as <-.
  exists text. split; [reflexivity|].
  change ((5 + i)%nat) with (S (S (S (S (S i))))). cbn [app lookup list_lookup].
  by apply lookup_app_l_Some.
Qed.

End EntryModules.

Lemma makeIndexJs_imports_witness :
  contains (@makeIndexJs unit regular_imports schema_Author_Post)
    ("import { allPosts } from './allPosts.js'" +:+ LF).
Proof.
  apply (@makeIndexJs_imports unit regular_imports schema_Author_Post Post).
  right. left.
Defined.

Lemma writeFilesForCache_plan_barrels_witness :
  exists plan text,
    @writeFilesForCache_plan unit regular_imports cache_of_posts schema_Post
      "out" "local" = Returns plan
    /\ files plan !! 5%nat
       = Some {| filePath := "out/data/allPosts.js"; content := text;
                 documentHash := None |}
    /\ ends_with text (LF +:+ "export const allPosts = [_2024__post, hello]" +:+ LF).
Proof.
  destruct (@writeFilesForCache_plan unit regular_imports cache_of_posts schema_Post
              "out" "local") as [plan|e] eqn:Hplan;
    [|vm_compute in Hplan; discriminate Hplan].
  destruct (@writeFilesForCache_plan_barrels unit regular_imports cache_of_posts
              schema_Post "out" "local" plan 0%nat Post Hplan eq_refl)
    as (text & Htext & Hfile).
  exists plan, text. split; [reflexivity|]. split; [exact Hfile|].
  injection Htext as <-. exists
    ("// " +:+ autogeneratedNote +:+ LF +:+ LF
     +:+ "import _2024__post from './Post/_2024__post.json'" +:+ LF
     +:+ "import hello from './Post/hello.json'" +:+ LF).
  reflexivity.
Defined.
